(** * Verification of the AVR ATmega hardware UART driver header (uart.h)

    The header is configuration code for the C preprocessor: it fills in
    defaults for the macros the user left undefined, rejects conflicting
    interrupt settings with [#error], and declares the polling functions
    that the selected configuration keeps.  Part [Cpp] embeds the
    preprocessor constructs used by the header as a small state/error monad
    over the macro table and the list of declared functions, and
    [UartH] translates the header directive by directive.

    Part [Driver] models the runtime operations whose bodies live in
    uart.c, which is not part of the sources at hand; they are modelled
    from the specification. *)

From Stdlib Require Import ZArith String List Bool Lia.
Import ListNotations.
Open Scope string_scope.

Module Cpp.

Local Open Scope list_scope.

  (** Replacement text of a macro: a number, a single token, or nothing. *)
Inductive mval : Type :=
  | MNum (z : Z)
  | MTok (t : string)
  | MEmpty.

  (** The macro table, in order of definition, the latest first: a
      [#define] puts its entry in front, and lookup finds the latest
      definition of a name, [None] when the name is undefined. *)
Definition macros := list (string * mval).

Fixpoint lookup (m : macros) (k : string) : option mval :=
    match m with
    | [] => None
    | (k', v) :: m' => if String.eqb k k' then Some v else lookup m' k
    end.

Coercion lookup : macros >-> Funclass.

Definition no_macros : macros := [].

Definition set_macro (m : macros) (k : string) (v : mval) : macros :=
    (k, v) :: m.

  (** [defined(k)], [#ifdef k]. *)
Definition defined (m : macros) (k : string) : bool :=
    match m k with Some _ => true | None => false end.

  (** The table seen while the replacement of [k] is rescanned: [k] is
      not expanded again there. *)
Definition remove_key (m : macros) (k : string) : macros :=
    filter (fun kv => negb (String.eqb (fst kv) k)) m.

  (** Value of an identifier inside an [#if] expression.  An undefined
      identifier is 0; a numeric macro gives its number; a macro whose
      replacement is another identifier is expanded, with the macros
      already being expanded not expanded again (such an identifier is
      then 0); a macro with an empty replacement leaves the operator
      without an operand, which is an error ([None]).  Each expansion step
      removes a defined name, so [length m] steps always suffice. *)
Fixpoint expand (fuel : nat) (m : macros) (k : string) : option Z :=
    match m k with
    | None => Some 0%Z
    | Some (MNum z) => Some z
    | Some MEmpty => None
    | Some (MTok t) =>
        match fuel with
        | O => Some 0%Z
        | S f => expand f (remove_key m k) t
        end
    end.

Definition value (m : macros) (k : string) : option Z := expand (length m) m k.

  (** [k == z] in an [#if] expression; [None] when [k] has no value. *)
Definition num_eq (k : string) (z : Z) (m : macros) : option bool :=
    match value m k with Some v => Some (Z.eqb v z) | None => None end.

  (** [0 < k] in an [#if] expression. *)
Definition num_pos (k : string) (m : macros) : option bool :=
    match value m k with Some v => Some (Z.ltb 0 v) | None => None end.

  (** [a || b]; a malformed operand makes the whole expression malformed. *)
Definition or_expr (a b : option bool) : option bool :=
    match a, b with Some x, Some y => Some (x || y) | _, _ => None end.

  (** Whether a well-formed expression is true. *)
Definition holds (o : option bool) : bool :=
    match o with Some b => b | None => false end.

  (** Preprocessor state: the macro table and the function prototypes
      emitted so far, in order. *)
Record pp_state := mk_pp { pp_macros : macros; pp_decls : list string }.

  (** A preprocessing step either stops with an [#error] message or
      continues with an updated state. *)
Definition PP (A : Type) := pp_state -> string + (A * pp_state).

Definition ret {A} (a : A) : PP A := fun s => inr (a, s).

Definition bind {A B} (m : PP A) (f : A -> PP B) : PP B :=
    fun s => match m s with
             | inl e => inl e
             | inr (a, s') => f a s'
             end.

Notation "m ;; k" := (bind m (fun _ => k)) (at level 61, right associativity).

Definition skip : PP unit := ret tt.

  (** [#define k v] *)
Definition define (k : string) (v : mval) : PP unit :=
    fun s => inr (tt, mk_pp (set_macro (pp_macros s) k v) (pp_decls s)).

  (** [#error msg] *)
Definition error (msg : string) : PP unit := fun _ => inl msg.

  (** A function prototype reaching the compiler. *)
Definition declare (f : string) : PP unit :=
    fun s => inr (tt, mk_pp (pp_macros s) (pp_decls s ++ [f])).

  (** [#if c ... #else ... #endif] *)
Definition cond (c : macros -> bool) (t e : PP unit) : PP unit :=
    fun s => if c (pp_macros s) then t s else e s.

  (** [#if e ... #else ... #endif] for an arithmetic expression [e]: a
      malformed expression stops preprocessing. *)
Definition if_expr (c : macros -> option bool) (t e : PP unit) : PP unit :=
    fun s => match c (pp_macros s) with
             | Some true => t s
             | Some false => e s
             | None => inl "#if with no expression"
             end.

  (** [#ifdef k ... #else ... #endif] *)
Definition ifdef (k : string) (t e : PP unit) : PP unit :=
    cond (fun m => defined m k) t e.

  (** [#ifndef k ... #endif] *)
Definition ifndef (k : string) (t : PP unit) : PP unit :=
    cond (fun m => defined m k) skip t.

  (** [#include <h>] of a system or library header (stdio.h, avr/io.h,
      util/setbaud.h, UART_enums.h).  These headers are not part of the
      driver and are not modelled: the macros they define (the baud
      register values of util/setbaud.h, the register names of avr/io.h)
      and util/setbaud.h's own check that [BAUD] is defined are left out,
      so the table below holds the user's macros and those of uart.h, and a
      configuration accepted here may still be refused by those headers. *)
Definition include (h : string) : PP unit := skip.

  (** [m] ends, when it does not stop on [#error], in a state related to
      its start state by [R]. *)
Definition preserves (R : pp_state -> pp_state -> Prop) (m : PP unit) : Prop :=
    forall s a s', m s = inr (a, s') -> R s s'.

Definition same_macro (k : string) (s s' : pp_state) : Prop :=
    pp_macros s' k = pp_macros s k.

  (** What [#ifndef k / #define k v / #endif] leaves in [k]. *)
Definition or_default (o : option mval) (v : mval) : option mval :=
    match o with Some x => Some x | None => Some v end.

Definition same_decls (s s' : pp_state) : Prop := pp_decls s' = pp_decls s.

  (** [m] never stops on [#error] and returns [tt]. *)
Definition total (m : PP unit) : Prop := forall s, exists s', m s = inr (tt, s').

  (** Every [#error] [m] can stop on has the message [msg]. *)
Definition only_error (msg : string) (m : PP unit) : Prop :=
    forall s e, m s = inl e -> e = msg.

End Cpp.

Import Cpp.

Module UartH.

Local Open Scope list_scope.

  (** Lines 23-32. *)
Definition cfg_f_cpu : PP unit :=
    ifndef "F_CPU" (define "F_CPU" (MNum 12000000)).

  (** Lines 34-48. *)
Definition cfg_baudrate : PP unit :=
    ifndef "UART_BAUDRATE"
      (define "UART_BAUDRATE" (MNum 9600) ;;
       define "BAUD" (MTok "UART_BAUDRATE")).

  (** Lines 50-66. *)
Definition cfg_datasize : PP unit :=
    ifndef "UART_DATASIZE" (define "UART_DATASIZE" (MNum 8)).

  (** Lines 68-82. *)
Definition cfg_parity : PP unit :=
    ifndef "UART_PARITY" (define "UART_PARITY" (MNum 0)).

  (** Lines 84-97. *)
Definition cfg_stopbits : PP unit :=
    ifndef "UART_STOPBITS" (define "UART_STOPBITS" (MNum 1)).

  (** Lines 99-114: the default itself is commented out. *)
Definition cfg_rxc_echo : PP unit :=
    ifndef "UART_RXC_ECHO"
      (ifdef "_DOXYGEN_" (define "UART_RXC_ECHO" MEmpty) skip).

  (** Lines 116-195.  The [#endif] closing [#ifndef UART_HANDSHAKE] is the
      one on line 195, so the pin and XON/XOFF defaults are all nested
      inside it. *)
Definition cfg_handshake : PP unit :=
    ifndef "UART_HANDSHAKE"
      (define "UART_HANDSHAKE" (MNum 0) ;;
       if_expr (num_eq "UART_HANDSHAKE" 2)
         (ifndef "UART_HANDSHAKE_DDR" (define "UART_HANDSHAKE_DDR" (MTok "DDRC")) ;;
          ifndef "UART_HANDSHAKE_PIN" (define "UART_HANDSHAKE_PIN" (MTok "PINC")) ;;
          ifndef "UART_HANDSHAKE_PORT" (define "UART_HANDSHAKE_PORT" (MTok "PORTC")) ;;
          ifndef "UART_HANDSHAKE_CTS_PIN"
            (define "UART_HANDSHAKE_CTS_PIN" (MTok "PINC0")) ;;
          ifndef "UART_HANDSHAKE_RTS_PIN"
            (define "UART_HANDSHAKE_RTS_PIN" (MTok "PINC1")))
         skip ;;
       ifndef "UART_HANDSHAKE_XON" (define "UART_HANDSHAKE_XON" (MNum 17)) ;;
       ifndef "UART_HANDSHAKE_XOFF" (define "UART_HANDSHAKE_XOFF" (MNum 19))).

  (** Lines 197-212. *)
Definition cfg_stdmode : PP unit :=
    ifndef "UART_STDMODE" (define "UART_STDMODE" (MNum 1)).

  (** Lines 223-236: the default is commented out. *)
Definition cfg_rxcie : PP unit := ifndef "UART_RXCIE" skip.

  (** Lines 238-251: the default is commented out. *)
Definition cfg_txcie : PP unit := ifndef "UART_TXCIE" skip.

  (** Lines 253-270. *)
Definition cfg_udrie : PP unit :=
    ifndef "UART_UDRIE"
      (ifdef "UART_TXCIE"
         (error "UART_TXCIE and UART_UDRIE cannot be used together")
         skip).

  (** Lines 273-277. *)
Definition includes : PP unit :=
    include "stdio.h" ;; include "avr/io.h" ;; include "util/setbaud.h" ;;
    include "../common/enums/UART_enums.h".

  (** [UART_STDMODE == z] *)
Definition stdmode_is (z : Z) (m : macros) : option bool :=
    num_eq "UART_STDMODE" z m.

  (** Lines 279-305. *)
Definition prototypes : PP unit :=
    declare "uart_init" ;;
    declare "uart_disable" ;;
    cond (fun m => negb (defined m "UART_TXCIE") && negb (defined m "UART_UDRIE"))
      (declare "uart_putchar" ;;
       if_expr (fun m => or_expr (stdmode_is 1 m) (stdmode_is 2 m))
         (declare "uart_printf") skip)
      skip ;;
    cond (fun m => negb (defined m "UART_RXCIE"))
      (declare "uart_getchar" ;;
       declare "uart_scanchar" ;;
       declare "uart_error_flags" ;;
       if_expr (fun m => or_expr (stdmode_is 1 m) (stdmode_is 3 m))
         (declare "uart_scanf" ;; declare "uart_clear")
         skip)
      skip ;;
    cond (fun m => negb (defined m "UART_TXCIE") && negb (defined m "UART_UDRIE")
                   && negb (defined m "UART_RXCIE"))
      (if_expr (num_pos "UART_HANDSHAKE")
         (declare "uart_handshake") skip)
      skip.

  (** The prototypes of lines 279-305 for a given macro table, when the
      [#if]s evaluated there are well formed. *)
Definition header_decls (m : macros) : list string :=
    ["uart_init"; "uart_disable"] ++
    (if negb (defined m "UART_TXCIE") && negb (defined m "UART_UDRIE")
     then "uart_putchar" ::
            (if holds (or_expr (stdmode_is 1 m) (stdmode_is 2 m))
             then ["uart_printf"] else [])
     else []) ++
    (if negb (defined m "UART_RXCIE")
     then ["uart_getchar"; "uart_scanchar"; "uart_error_flags"] ++
            (if holds (or_expr (stdmode_is 1 m) (stdmode_is 3 m))
             then ["uart_scanf"; "uart_clear"] else [])
     else []) ++
    (if negb (defined m "UART_TXCIE") && negb (defined m "UART_UDRIE")
        && negb (defined m "UART_RXCIE")
     then (if holds (num_pos "UART_HANDSHAKE" m) then ["uart_handshake"] else [])
     else []).

  (** Lines 23-270: every configuration block. *)
Definition config : PP unit :=
    cfg_f_cpu ;; cfg_baudrate ;; cfg_datasize ;; cfg_parity ;; cfg_stopbits ;;
    cfg_rxc_echo ;; cfg_handshake ;; cfg_stdmode ;;
    cfg_rxcie ;; cfg_txcie ;; cfg_udrie.

  (** The whole header, include guard included. *)
Definition uart_h : PP unit :=
    ifndef "UART_H_"
      (define "UART_H_" MEmpty ;; config ;; includes ;; prototypes).

  (** Including uart.h after the user's own [#define]s [u]: either the
      [#error] message or the resulting macro table and prototypes. *)
Definition preprocess (u : macros) : string + pp_state :=
    match uart_h (mk_pp u []) with
    | inl e => inl e
    | inr (_, s) => inr s
    end.

  (** The macros named by a [#define] of the header that can take effect
      (lines 21-211); the pin defaults of lines 136-176 are left out, as
      they sit under [#if UART_HANDSHAKE == 2] right after
      [#define UART_HANDSHAKE 0]. *)
Definition header_macros : list string :=
    ["UART_H_"; "F_CPU"; "UART_BAUDRATE"; "BAUD"; "UART_DATASIZE"; "UART_PARITY";
     "UART_STOPBITS"; "UART_RXC_ECHO"; "UART_HANDSHAKE"; "UART_HANDSHAKE_XON";
     "UART_HANDSHAKE_XOFF"; "UART_STDMODE"].

  (** A user configuration given as a list of [#define]s. *)
Definition user (ds : list (string * mval)) : macros :=
    fold_left (fun m kv => set_macro m (fst kv) (snd kv)) ds no_macros.

End UartH.
(** Modelled from the spec: the bodies of [uart_putchar], [uart_getchar],
    [uart_scanchar], [uart_error_flags], [uart_clear] and [uart_handshake]
    are in uart.c, which is missing; uart.h gives only their prototypes.
    The definitions below follow the spec's sections 4.3-4.5: the
    transmit path waits for Ready, then for an empty data register, then
    loads the byte; the receive path reads a byte together with its status
    bits, accumulates the status into sticky error flags, filters XON/XOFF
    in software flow-control mode and optionally echoes; the error flags
    are reset only by the clear operation; [uart_handshake] requests a state
    and reports the resulting one, CTS being authoritative in hardware mode. *)
Module Driver.

Local Open Scope list_scope.

  (** [UART_Handshake] (from the enums header, not in the sources). *)
Inductive UART_Handshake : Type :=
  | UART_Handshake_Ready
  | UART_Handshake_Paused.

Definition handshake_eqb (a b : UART_Handshake) : bool :=
    match a, b with
    | UART_Handshake_Ready, UART_Handshake_Ready
    | UART_Handshake_Paused, UART_Handshake_Paused => true
    | _, _ => false
    end.

  (** Flow-control mode selected by [UART_HANDSHAKE]. *)
Inductive flow : Type := FlowOff | FlowSoftware | FlowHardware.

Definition flow_of_config (z : Z) : flow :=
    if Z.eqb z 1 then FlowSoftware
    else if Z.eqb z 2 then FlowHardware
    else FlowOff.

  (** Status bits of a received frame, at their ATmega UCSRnA positions. *)
Definition UPE : Z := 2.
Definition DOR : Z := 3.
Definition FE : Z := 4.

  (** One frame as the receiver hardware holds it: data and status. *)
Record frame := mk_frame { f_data : Z; f_status : Z }.

Record uart := mk_uart {
    rx_fifo : list frame;       (** frames received, oldest first *)
    err : Z;                    (** sticky error flags *)
    remote : UART_Handshake;    (** software mode: last XON/XOFF from the peer *)
    last_sent : UART_Handshake; (** software mode: last control byte sent *)
    cts : bool;                 (** CTS input, high when the peer may receive *)
    rts : bool;                 (** RTS output, high when we may receive *)
    udre : bool;                (** transmit data register empty *)
    tx : list Z                 (** bytes loaded into the transmit data register *)
  }.

Definition set_rx q st :=
    mk_uart q (err st) (remote st) (last_sent st) (cts st) (rts st) (udre st) (tx st).
Definition set_err e st :=
    mk_uart (rx_fifo st) e (remote st) (last_sent st) (cts st) (rts st) (udre st) (tx st).
Definition set_remote r st :=
    mk_uart (rx_fifo st) (err st) r (last_sent st) (cts st) (rts st) (udre st) (tx st).
Definition set_last_sent l st :=
    mk_uart (rx_fifo st) (err st) (remote st) l (cts st) (rts st) (udre st) (tx st).
Definition set_cts c st :=
    mk_uart (rx_fifo st) (err st) (remote st) (last_sent st) c (rts st) (udre st) (tx st).
Definition set_rts r st :=
    mk_uart (rx_fifo st) (err st) (remote st) (last_sent st) (cts st) r (udre st) (tx st).
Definition set_udre u st :=
    mk_uart (rx_fifo st) (err st) (remote st) (last_sent st) (cts st) (rts st) u (tx st).
Definition set_tx t st :=
    mk_uart (rx_fifo st) (err st) (remote st) (last_sent st) (cts st) (rts st) (udre st) t.

  (** Hardware events that happen while the CPU busy-waits. *)
Inductive event : Type :=
  | Poll               (** the CPU runs one iteration of its wait loop *)
  | SetCts (c : bool)  (** the peer drives the CTS line *)
  | Drain.             (** the data register moves to the shift register *)

  (** Where [uart_putchar] is. *)
Inductive tx_pc : Type := WaitReady | WaitEmpty | Sent.

Section Ops.

Variable mode : flow.
Variables xon xoff : Z.
Variable echo : bool.

    (** Handshake state as the transmit path sees it. *)
Definition tx_ready (st : uart) : bool :=
      match mode with
      | FlowOff => true
      | FlowSoftware => handshake_eqb (remote st) UART_Handshake_Ready
      | FlowHardware => cts st
      end.

    (** Modelled from the spec: [uart_putchar] (uart.c, missing), 4.3 and
        4.5.  One step of [uart_putchar b]: a CPU poll or a hardware event.
        The call waits for Ready, then for an empty data register; when it
        finds the register empty it checks the handshake state once more
        (4.5: the transmit path polls CTS before each byte and never sends
        while CTS is inactive) and, if the peer has paused meanwhile, goes
        back to waiting for Ready.  Each load is logged with the handshake
        state and the data-register-empty flag at that moment. *)
Definition put_step (b : Z) (e : event) (pc : tx_pc) (st : uart)
      : tx_pc * uart * list (Z * bool * bool) :=
      match e, pc with
      | Poll, WaitReady =>
          if tx_ready st then (WaitEmpty, st, []) else (WaitReady, st, [])
      | Poll, WaitEmpty =>
          if udre st
          then if tx_ready st
               then (Sent, set_tx (tx st ++ [b]) (set_udre false st),
                     [(b, tx_ready st, udre st)])
               else (WaitReady, st, [])
          else (WaitEmpty, st, [])
      | Poll, Sent => (Sent, st, [])
      | SetCts c, _ => (pc, set_cts c st, [])
      | Drain, _ => (pc, set_udre true st, [])
      end.

    (** Modelled from the spec: [uart_putchar] (uart.c, missing), 4.3.
        [uart_putchar b] under a schedule of CPU polls and hardware events. *)
Fixpoint put_run (b : Z) (es : list event) (pc : tx_pc) (st : uart)
      : tx_pc * uart * list (Z * bool * bool) :=
      match es with
      | [] => (pc, st, [])
      | e :: es' =>
          let '(pc1, st1, l1) := put_step b e pc st in
          let '(pc2, st2, l2) := put_run b es' pc1 st1 in
          (pc2, st2, l1 ++ l2)
      end.

Definition is_software : bool :=
      match mode with FlowSoftware => true | _ => false end.

    (** Modelled from the spec: the receive path of uart.c (missing), 4.4-4.5.
        Receive path: read the oldest frame (data and status together),
        accumulate its status into the sticky flags, consume XON/XOFF in
        software mode, echo a data byte if enabled.  [None]: no data byte
        has arrived yet, the caller keeps polling.  An echoed byte is
        appended to the bytes sent; the transmit path's own waits for it
        are not modelled here. *)
Fixpoint receive_from (q : list frame) (st : uart) : option (frame * uart) :=
      match q with
      | [] => None
      | f :: q' =>
          let st1 := set_err (Z.lor (err st) (f_status f)) (set_rx q' st) in
          if is_software && Z.eqb (f_data f) xon
          then receive_from q' (set_remote UART_Handshake_Ready st1)
          else if is_software && Z.eqb (f_data f) xoff
          then receive_from q' (set_remote UART_Handshake_Paused st1)
          else Some (f, if echo then set_tx (tx st1 ++ [f_data f]) st1 else st1)
      end.

Definition receive (st : uart) : option (frame * uart) :=
      receive_from (rx_fifo st) st.

    (** Modelled from the spec: [uart_getchar] (uart.c, missing), 4.4.
        [char uart_getchar(UART_Data *status)]: the byte, the status. *)
Definition uart_getchar (st : uart) : option (Z * Z * uart) :=
      match receive st with
      | Some (f, st') => Some (f_data f, f_status f, st')
      | None => None
      end.

    (** Modelled from the spec: [uart_scanchar] (uart.c, missing), 4.4.
        [UART_Data uart_scanchar(char *data)]: the status, the byte. *)
Definition uart_scanchar (st : uart) : option (Z * Z * uart) :=
      match receive st with
      | Some (f, st') => Some (f_status f, f_data f, st')
      | None => None
      end.

(** Modelled from the spec: [uart_error_flags] (uart.c, missing), 4.4. *)
Definition uart_error_flags (st : uart) : Z := err st.

(** Modelled from the spec: [uart_clear] (uart.c, missing), 4.4. *)
Definition uart_clear (st : uart) : uart := set_err 0 st.

Definition control_byte (s : UART_Handshake) : Z :=
      match s with UART_Handshake_Ready => xon | UART_Handshake_Paused => xoff end.

    (** Modelled from the spec: [uart_handshake] (uart.c, missing), 4.5.
        [UART_Handshake uart_handshake(UART_Handshake status)]: request
        [s] and report the resulting state. *)
Definition uart_handshake (s : UART_Handshake) (st : uart) : UART_Handshake * uart :=
      match mode with
      | FlowHardware =>
          let st' := set_rts (handshake_eqb s UART_Handshake_Ready) st in
          (if cts st' then UART_Handshake_Ready else UART_Handshake_Paused, st')
      | FlowSoftware =>
          let st' := if handshake_eqb s (last_sent st) then st
                     else set_last_sent s (set_tx (tx st ++ [control_byte s]) st) in
          (last_sent st', st')
      | FlowOff => (UART_Handshake_Ready, st)
      end.

    (** Driver operations and hardware arrivals, for sequences of calls. *)
Inductive op : Type :=
    | OArrive (f : frame)
    | OGetchar
    | OScanchar
    | OErrorFlags
    | OClear
    | OHandshake (s : UART_Handshake)
    | OPutchar (b : Z) (es : list event).

    (** [None]: the call has not returned (still polling). *)
Definition exec (o : op) (st : uart) : option uart :=
      match o with
      | OArrive f => Some (set_rx (rx_fifo st ++ [f]) st)
      | OGetchar =>
          match uart_getchar st with Some (_, _, st') => Some st' | None => None end
      | OScanchar =>
          match uart_scanchar st with Some (_, _, st') => Some st' | None => None end
      | OErrorFlags => let _ := uart_error_flags st in Some st
      | OClear => Some (uart_clear st)
      | OHandshake s => Some (snd (uart_handshake s st))
      | OPutchar b es =>
          match put_run b es WaitReady st with
          | (Sent, st', _) => Some st'
          | _ => None
          end
      end.

Fixpoint run (os : list op) (st : uart) : option uart :=
      match os with
      | [] => Some st
      | o :: os' => match exec o st with Some st' => run os' st' | None => None end
      end.

End Ops.

  (** Every bit set in the error flags of [st] is set in those of [st']. *)
Definition keeps_err (st st' : uart) : Prop :=
    forall i, Z.testbit (err st) i = true -> Z.testbit (err st') i = true.

End Driver.

(** * Properties of the preprocessor embedding *)

Implicit Types (u m : macros).

Module CppFacts.

Local Open Scope list_scope.

Lemma bind_inv {A B} (m : PP A) (f : A -> PP B) s b s2 :
    bind m f s = inr (b, s2) ->
    exists a s1, m s = inr (a, s1) /\ f a s1 = inr (b, s2).
  Proof.
    unfold bind. destruct (m s) as [e | [a s1]]; [discriminate |].
    intros H. exists a, s1. auto.
  Qed.

Section Preserve.

Variable R : pp_state -> pp_state -> Prop.
Hypothesis R_refl : forall s, R s s.
Hypothesis R_trans : forall s1 s2 s3, R s1 s2 -> R s2 s3 -> R s1 s3.

Lemma preserves_skip : preserves R skip.
    Proof. intros s a s' H. injection H as <- <-. apply R_refl. Qed.

Lemma preserves_include h : preserves R (include h).
    Proof. apply preserves_skip. Qed.

Lemma preserves_error msg : preserves R (error msg).
    Proof. intros s a s' H. discriminate. Qed.

Lemma preserves_seq (m k : PP unit) :
      preserves R m -> preserves R k -> preserves R (m ;; k).
    Proof.
      intros Hm Hk s a s' H.
      destruct (bind_inv _ _ _ _ _ H) as (b & s1 & H1 & H2).
      eapply R_trans; [eapply Hm; exact H1 | eapply Hk; exact H2].
    Qed.

Lemma preserves_cond c (t e : PP unit) :
      preserves R t -> preserves R e -> preserves R (cond c t e).
    Proof.
      intros Ht He s a s' H. unfold cond in H.
      destruct (c (pp_macros s)); [eapply Ht | eapply He]; exact H.
    Qed.

Lemma preserves_if_expr c (t e : PP unit) :
      preserves R t -> preserves R e -> preserves R (if_expr c t e).
    Proof.
      intros Ht He s a s' H. unfold if_expr in H.
      destruct (c (pp_macros s)) as [[|] |]; [eapply Ht | eapply He | discriminate]; exact H.
    Qed.

End Preserve.

Lemma lookup_set_same m k v : set_macro m k v k = Some v.
  Proof. cbn. rewrite String.eqb_refl. reflexivity. Qed.

Lemma lookup_set_other m k k' v : k <> k' -> set_macro m k' v k = m k.
  Proof. intros Hne. cbn. destruct (String.eqb_spec k k'); congruence. Qed.

Lemma expand_eq f (m : macros) k :
    expand f m k =
      match m k with
      | None => Some 0%Z
      | Some (MNum z) => Some z
      | Some MEmpty => None
      | Some (MTok t) => match f with O => Some 0%Z | S f' => expand f' (remove_key m k) t end
      end.
  Proof. destruct f; reflexivity. Qed.

Lemma value_undef (m : macros) k : m k = None -> value m k = Some 0%Z.
  Proof. intros H. unfold value. rewrite expand_eq, H. reflexivity. Qed.

Lemma value_num (m : macros) k z : m k = Some (MNum z) -> value m k = Some z.
  Proof. intros H. unfold value. rewrite expand_eq, H. reflexivity. Qed.

Lemma value_empty (m : macros) k : m k = Some MEmpty -> value m k = None.
  Proof. intros H. unfold value. rewrite expand_eq, H. reflexivity. Qed.

  (** [k == z1 || k == z2] holds exactly when [k] evaluates to [z1] or [z2]. *)
Lemma holds_or_eq k z1 z2 m :
    holds (or_expr (num_eq k z1 m) (num_eq k z2 m)) = true <->
    value m k = Some z1 \/ value m k = Some z2.
  Proof.
    unfold holds, or_expr, num_eq. destruct (value m k) as [v |].
    - rewrite orb_true_iff, !Z.eqb_eq. split; intros [H | H]; subst;
        solve [ left; reflexivity | right; reflexivity
              | left; congruence | right; congruence ].
    - split; [discriminate | intros [H | H]; discriminate].
  Qed.

Lemma holds_pos k m :
    holds (num_pos k m) = true <-> exists v, value m k = Some v /\ (0 < v)%Z.
  Proof.
    unfold holds, num_pos. destruct (value m k) as [v |].
    - rewrite Z.ltb_lt. split; [intros H; exists v; auto | intros (w & Hw & H); congruence].
    - split; [discriminate | intros (w & Hw & _); discriminate].
  Qed.

Lemma same_macro_refl k s : same_macro k s s.
  Proof. reflexivity. Qed.

Lemma same_macro_trans k s1 s2 s3 :
    same_macro k s1 s2 -> same_macro k s2 s3 -> same_macro k s1 s3.
  Proof. unfold same_macro. congruence. Qed.

Lemma same_decls_refl s : same_decls s s.
  Proof. reflexivity. Qed.

Lemma same_decls_trans s1 s2 s3 :
    same_decls s1 s2 -> same_decls s2 s3 -> same_decls s1 s3.
  Proof. unfold same_decls. congruence. Qed.

Lemma preserves_define_other k k' v :
    k' <> k -> preserves (same_macro k) (define k' v).
  Proof.
    intros Hne s a s' H. injection H as <- <-.
    unfold same_macro. apply lookup_set_other. congruence.
  Qed.

Lemma preserves_define_decls k v : preserves same_decls (define k v).
  Proof. intros s a s' H. injection H as <- <-. reflexivity. Qed.

Lemma preserves_declare_macro k f : preserves (same_macro k) (declare f).
  Proof. intros s a s' H. injection H as <- <-. reflexivity. Qed.

Lemma ifndef_define_default k v s a s' :
    ifndef k (define k v) s = inr (a, s') ->
    pp_macros s' k = or_default (pp_macros s k) v.
  Proof.
    unfold ifndef, cond, defined, skip, ret, define, or_default.
    destruct (pp_macros s k) eqn:E; intros H; injection H as <- <-.
    - exact E.
    - apply lookup_set_same.
  Qed.

Lemma ifndef_define_seq_default k v (rest : PP unit) s a s' :
    preserves (same_macro k) rest ->
    ifndef k (define k v ;; rest) s = inr (a, s') ->
    pp_macros s' k = or_default (pp_macros s k) v.
  Proof.
    intros Hrest. unfold ifndef, cond, defined, skip, ret, or_default.
    destruct (pp_macros s k) eqn:E; intros H.
    - injection H as <- <-. exact E.
    - destruct (bind_inv _ _ _ _ _ H) as (b & s1 & H1 & H2).
      injection H1 as <- <-.
      rewrite (Hrest _ _ _ H2). apply lookup_set_same.
  Qed.

End CppFacts.

Import CppFacts.

(** Unfold the blocks of the header and split [preserves] goals down to
    single directives. *)
Ltac preserve_tac :=
  unfold UartH.config, UartH.cfg_f_cpu, UartH.cfg_baudrate, UartH.cfg_datasize,
    UartH.cfg_parity, UartH.cfg_stopbits, UartH.cfg_rxc_echo, UartH.cfg_handshake,
    UartH.cfg_stdmode, UartH.cfg_rxcie, UartH.cfg_txcie, UartH.cfg_udrie,
    UartH.includes, ifdef, ifndef;
  repeat match goal with
  | |- preserves (same_macro ?k) _ =>
      first [ apply (preserves_seq _ (same_macro_trans k))
            | apply preserves_cond
            | apply preserves_if_expr
            | apply (preserves_skip _ (same_macro_refl k))
            | apply (preserves_include _ (same_macro_refl k))
            | apply preserves_error
            | apply preserves_declare_macro
            | apply preserves_define_other; discriminate ]
  | |- preserves same_decls _ =>
      first [ apply (preserves_seq _ same_decls_trans)
            | apply preserves_cond
            | apply preserves_if_expr
            | apply (preserves_skip _ same_decls_refl)
            | apply (preserves_include _ same_decls_refl)
            | apply preserves_error
            | apply preserves_define_decls ]
  end.

(** Split a hypothesis [(b1 ;; b2 ;; ...) s = inr _] into one hypothesis
    per block. *)
Ltac split_seq H :=
  repeat match type of H with
  | bind _ _ _ = inr _ =>
      let a := fresh "a" in let s := fresh "s" in
      let H1 := fresh "Hb" in let H2 := fresh "Hr" in
      destruct (bind_inv _ _ _ _ _ H) as (a & s & H1 & H2); clear H; rename H2 into H
  end.

(** Turn every block hypothesis that leaves macro [k] alone into an
    equation on [k]. *)
Ltac frame_key k :=
  repeat match goal with
  | Hb : ?blk ?x = inr (_, ?y) |- _ =>
      let E := fresh "E" in
      assert (E : same_macro k x y)
        by (refine ((_ : preserves (same_macro k) blk) x _ y Hb); preserve_tac);
      clear Hb; unfold same_macro in E
  end.

(** Same for two keys at once; a block hypothesis is consumed once the
    equations it gives have been recorded. *)
Ltac frame_keys2 k1 k2 :=
  repeat match goal with
  | Hb : ?blk ?x = inr (_, ?y) |- _ =>
      try (assert (same_macro k1 x y)
             by (refine ((_ : preserves (same_macro k1) blk) x _ y Hb); preserve_tac));
      try (assert (same_macro k2 x y)
             by (refine ((_ : preserves (same_macro k2) blk) x _ y Hb); preserve_tac));
      clear Hb
  end;
  unfold same_macro in *.

Module UartHFacts.

Import UartH.
Local Open Scope list_scope.

Lemma config_decls : preserves same_decls config.
  Proof. preserve_tac. Qed.

Lemma config_txcie : preserves (same_macro "UART_TXCIE") config.
  Proof. preserve_tac. Qed.

Lemma config_udrie : preserves (same_macro "UART_UDRIE") config.
  Proof. preserve_tac. Qed.

Lemma config_rxcie : preserves (same_macro "UART_RXCIE") config.
  Proof. preserve_tac. Qed.

Lemma includes_macros s a s' : includes s = inr (a, s') -> s' = s.
  Proof. intros H. injection H as _ <-. reflexivity. Qed.

Lemma prototypes_spec s a s' :
    prototypes s = inr (a, s') ->
    pp_macros s' = pp_macros s /\ pp_decls s' = pp_decls s ++ header_decls (pp_macros s).
  Proof.
    destruct s as [m d].
    unfold prototypes, header_decls, bind, cond, if_expr, declare, skip, ret.
    cbn -[defined or_expr stdmode_is num_pos holds].
    intros H.
    destruct (defined m "UART_TXCIE") eqn:E1, (defined m "UART_UDRIE") eqn:E2,
      (defined m "UART_RXCIE") eqn:E3,
      (or_expr (stdmode_is 1 m) (stdmode_is 2 m)) as [[|] |] eqn:E4,
      (or_expr (stdmode_is 1 m) (stdmode_is 3 m)) as [[|] |] eqn:E5,
      (num_pos "UART_HANDSHAKE" m) as [[|] |] eqn:E6;
      do 5 (cbn -[defined or_expr stdmode_is num_pos holds] in H;
            rewrite ?E1, ?E2, ?E3, ?E4, ?E5, ?E6 in H);
      try discriminate H;
      injection H as <- <-; cbn; split; try reflexivity;
      repeat rewrite <- app_assoc; reflexivity.
  Qed.

End UartHFacts.

(** The value of [k] after [config] is the user's or the default set by
    block [blk]. *)
Ltac default_tac k blk :=
  let Hc := fresh "Hc" in
  intros Hc; unfold UartH.config in *; split_seq Hc; frame_key k;
  unfold blk in *;
  match goal with
  | Hb : ifndef _ _ _ = _ |- _ =>
      first [ apply ifndef_define_default in Hb
            | apply ifndef_define_seq_default in Hb; [| preserve_tac] ]
  end;
  congruence.

Module UartHDefaults.

Local Open Scope list_scope.

Import UartH.

Lemma config_f_cpu s a s' : config s = inr (a, s') ->
    pp_macros s' "F_CPU" = or_default (pp_macros s "F_CPU") (MNum 12000000).
  Proof. default_tac "F_CPU" cfg_f_cpu. Qed.

Lemma config_baudrate s a s' : config s = inr (a, s') ->
    pp_macros s' "UART_BAUDRATE" = or_default (pp_macros s "UART_BAUDRATE") (MNum 9600).
  Proof. default_tac "UART_BAUDRATE" cfg_baudrate. Qed.

Lemma config_datasize s a s' : config s = inr (a, s') ->
    pp_macros s' "UART_DATASIZE" = or_default (pp_macros s "UART_DATASIZE") (MNum 8).
  Proof. default_tac "UART_DATASIZE" cfg_datasize. Qed.

Lemma config_parity s a s' : config s = inr (a, s') ->
    pp_macros s' "UART_PARITY" = or_default (pp_macros s "UART_PARITY") (MNum 0).
  Proof. default_tac "UART_PARITY" cfg_parity. Qed.

Lemma config_stopbits s a s' : config s = inr (a, s') ->
    pp_macros s' "UART_STOPBITS" = or_default (pp_macros s "UART_STOPBITS") (MNum 1).
  Proof. default_tac "UART_STOPBITS" cfg_stopbits. Qed.

Lemma config_handshake s a s' : config s = inr (a, s') ->
    pp_macros s' "UART_HANDSHAKE" = or_default (pp_macros s "UART_HANDSHAKE") (MNum 0).
  Proof. default_tac "UART_HANDSHAKE" cfg_handshake. Qed.

Lemma config_stdmode s a s' : config s = inr (a, s') ->
    pp_macros s' "UART_STDMODE" = or_default (pp_macros s "UART_STDMODE") (MNum 1).
  Proof. default_tac "UART_STDMODE" cfg_stdmode. Qed.

Lemma rxc_echo_block s a s' : cfg_rxc_echo s = inr (a, s') ->
    pp_macros s "_DOXYGEN_" = None ->
    pp_macros s' "UART_RXC_ECHO" = pp_macros s "UART_RXC_ECHO".
  Proof.
    unfold cfg_rxc_echo, ifndef, ifdef, cond, defined, skip, ret.
    intros H Hd. rewrite Hd in H.
    destruct (pp_macros s "UART_RXC_ECHO") eqn:E; injection H as _ <-; congruence.
  Qed.

Lemma config_rxc_echo s a s' : config s = inr (a, s') ->
    pp_macros s "_DOXYGEN_" = None ->
    pp_macros s' "UART_RXC_ECHO" = pp_macros s "UART_RXC_ECHO".
  Proof.
    intros Hc Hd. unfold config in Hc. split_seq Hc.
    match goal with
    | Hb : cfg_rxc_echo ?x = inr (_, ?y) |- _ =>
        pose proof (rxc_echo_block _ _ _ Hb) as Hecho
    end.
    frame_keys2 "UART_RXC_ECHO" "_DOXYGEN_".
    match goal with
    | Hecho : lookup (pp_macros ?x) _ = None -> _ |- _ =>
        assert (Hx : pp_macros x "_DOXYGEN_" = None) by congruence;
        specialize (Hecho Hx)
    end.
    congruence.
  Qed.

  (** A successful inclusion runs [config] on the user's macros, then emits
    [header_decls] of the resulting table. *)
Lemma preprocess_inv u s :
    u "UART_H_" = None -> preprocess u = inr s ->
    exists s1, config (mk_pp (set_macro u "UART_H_" MEmpty) []) = inr (tt, s1) /\
               pp_macros s = pp_macros s1 /\
               pp_decls s = header_decls (pp_macros s1).
  Proof.
    intros Hu. unfold preprocess, uart_h, ifndef, cond. cbn [pp_macros].
    unfold defined at 1. rewrite Hu.
    destruct ((define "UART_H_" MEmpty ;; config ;; includes ;; prototypes)
                (mk_pp u [])) as [e | [a s']] eqn:E;
      intros H; [discriminate | injection H as <-].
    destruct (bind_inv _ _ _ _ _ E) as (a0 & s0 & H0 & H1).
    injection H0 as _ <-.
    destruct (bind_inv _ _ _ _ _ H1) as ([] & s1 & H2 & H3).
    destruct (bind_inv _ _ _ _ _ H3) as (a2 & s2 & H4 & H5).
    apply UartHFacts.includes_macros in H4. subst s2.
    apply UartHFacts.prototypes_spec in H5. destruct H5 as [Hm Hd].
    exists s1. split; [exact H2 |].
    pose proof (UartHFacts.config_decls _ _ _ H2) as Hd1.
    unfold same_decls in Hd1. cbn in Hd1. rewrite Hd, Hd1. auto.
  Qed.

Lemma set_macro_other u k k' v : k <> k' -> set_macro u k' v k = u k.
  Proof. apply lookup_set_other. Qed.

  (** The macro table seen by the prototypes, in terms of the user's. *)
Lemma preprocess_macros u s :
    u "UART_H_" = None -> preprocess u = inr s ->
    pp_decls s = header_decls (pp_macros s) /\
    pp_macros s "UART_TXCIE" = u "UART_TXCIE" /\
    pp_macros s "UART_UDRIE" = u "UART_UDRIE" /\
    pp_macros s "UART_RXCIE" = u "UART_RXCIE" /\
    pp_macros s "UART_STDMODE" = or_default (u "UART_STDMODE") (MNum 1) /\
    pp_macros s "UART_HANDSHAKE" = or_default (u "UART_HANDSHAKE") (MNum 0).
  Proof.
    intros Hu Hp. destruct (preprocess_inv u s Hu Hp) as (s1 & Hc & Hm & Hd).
    rewrite Hd, Hm.
    rewrite (UartHFacts.config_txcie _ _ _ Hc), (UartHFacts.config_udrie _ _ _ Hc),
      (UartHFacts.config_rxcie _ _ _ Hc), (config_stdmode _ _ _ Hc),
      (config_handshake _ _ _ Hc).
    cbn [pp_macros]. rewrite !set_macro_other by discriminate.
    repeat split; reflexivity.
  Qed.

  (** Membership in the prototypes of a successful inclusion. *)
Lemma preprocess_decls u s :
    u "UART_H_" = None -> preprocess u = inr s ->
    pp_decls s =
      ["uart_init"; "uart_disable"] ++
      (if negb (defined u "UART_TXCIE") && negb (defined u "UART_UDRIE")
       then "uart_putchar" ::
              (if holds (or_expr (stdmode_is 1 (pp_macros s)) (stdmode_is 2 (pp_macros s)))
               then ["uart_printf"] else [])
       else []) ++
      (if negb (defined u "UART_RXCIE")
       then ["uart_getchar"; "uart_scanchar"; "uart_error_flags"] ++
              (if holds (or_expr (stdmode_is 1 (pp_macros s)) (stdmode_is 3 (pp_macros s)))
               then ["uart_scanf"; "uart_clear"] else [])
       else []) ++
      (if negb (defined u "UART_TXCIE") && negb (defined u "UART_UDRIE")
          && negb (defined u "UART_RXCIE")
       then (if holds (num_pos "UART_HANDSHAKE" (pp_macros s))
             then ["uart_handshake"] else [])
       else []).
  Proof.
    intros Hu Hp.
    destruct (preprocess_macros u s Hu Hp) as (Hd & Ht & Hud & Hr & _ & _).
    rewrite Hd. unfold header_decls, defined. rewrite Ht, Hud, Hr. reflexivity.
  Qed.

End UartHDefaults.

(** * Claims on the header *)

(** Case analysis on the [#if]s of lines 282-304, each [UART_STDMODE]
    test turned into a statement on its value. *)
Ltac decls_cases u :=
    unfold UartH.stdmode_is;
    destruct (defined u "UART_TXCIE"), (defined u "UART_UDRIE"),
      (defined u "UART_RXCIE");
    repeat match goal with
    | |- context [holds (or_expr (num_eq ?k ?z1 ?m) (num_eq ?k ?z2 ?m))] =>
        let P := fresh "P" in
        destruct (holds (or_expr (num_eq k z1 m) (num_eq k z2 m))) eqn:P;
        [apply holds_or_eq in P | rewrite <- not_true_iff_false, holds_or_eq in P]
    | |- context [holds (num_pos ?k ?m)] =>
        let P := fresh "P" in
        destruct (holds (num_pos k m)) eqn:P;
        [apply holds_pos in P | rewrite <- not_true_iff_false, holds_pos in P]
    end;
    cbn [In app negb andb]; intuition (try discriminate; try congruence).


Module HeaderClaims.

Import UartH UartHDefaults.
Local Open Scope list_scope.

  (** Run the preprocessor on a concrete configuration: [s] is the
      resulting state, [E] the equation, and [s] is replaced by its value
      computed with the virtual machine. *)
Ltac eval_pp cfg :=
    let e := fresh "e" in let s := fresh "s" in
    let E := fresh "E" in let E' := fresh "E'" in
    destruct (preprocess cfg) as [e | s] eqn:E;
    pose proof E as E'; vm_compute in E'; [discriminate |];
    injection E' as E'; exists s; split; [reflexivity |]; subst s; vm_compute.

  (** C1 (code as written).  The conflict check of lines 253-270 sits
      inside [#ifndef UART_UDRIE]: with both [UART_TXCIE] and [UART_UDRIE]
      defined the header is accepted, while [UART_TXCIE] alone, a setting
      the header documents as valid, stops on the [#error]. *)
Theorem txcie_udrie_conflict_check :
    (exists s, preprocess (user [("UART_TXCIE", MEmpty); ("UART_UDRIE", MEmpty)]) = inr s /\
               ~ In "uart_putchar" (pp_decls s)) /\
    preprocess (user [("UART_TXCIE", MEmpty)]) =
      inl "UART_TXCIE and UART_UDRIE cannot be used together".
  Proof.
    split.
    - eval_pp (user [("UART_TXCIE", MEmpty); ("UART_UDRIE", MEmpty)]).
      intuition discriminate.
    - vm_compute. reflexivity.
  Qed.

  (** C2 (code as written).  Selecting software flow control means
      defining [UART_HANDSHAKE] as 1; the XON/XOFF defaults of lines
      180-194 are nested in [#ifndef UART_HANDSHAKE], so in that build
      neither [UART_HANDSHAKE_XON] nor [UART_HANDSHAKE_XOFF] gets defined.
      They are 0x11 and 0x13 only in the build without flow control. *)
Theorem software_handshake_leaves_xon_undefined :
    (exists s, preprocess (user [("UART_HANDSHAKE", MNum 1)]) = inr s /\
               In "uart_handshake" (pp_decls s) /\
               pp_macros s "UART_HANDSHAKE_XON" = None /\
               pp_macros s "UART_HANDSHAKE_XOFF" = None) /\
    (exists s, preprocess no_macros = inr s /\
               pp_macros s "UART_HANDSHAKE" = Some (MNum 0) /\
               pp_macros s "UART_HANDSHAKE_XON" = Some (MNum 17) /\
               pp_macros s "UART_HANDSHAKE_XOFF" = Some (MNum 19)).
  Proof.
    split.
    - eval_pp (user [("UART_HANDSHAKE", MNum 1)]). intuition.
    - eval_pp no_macros. intuition.
  Qed.

  (** C3, counterexample: with [UART_STDMODE] 0 and no interrupt macro,
      [uart_putchar] is declared but [uart_printf] is not. *)
Lemma printf_absent_without_stdio :
    exists s, preprocess (user [("UART_STDMODE", MNum 0)]) = inr s /\
      defined (user [("UART_STDMODE", MNum 0)]) "UART_TXCIE" = false /\
      defined (user [("UART_STDMODE", MNum 0)]) "UART_UDRIE" = false /\
      In "uart_putchar" (pp_decls s) /\ ~ In "uart_printf" (pp_decls s).
  Proof.
    eval_pp (user [("UART_STDMODE", MNum 0)]). intuition discriminate.
  Qed.

  (** C3, as amended.  For every user configuration the header accepts,
      [uart_putchar] is declared exactly when neither [UART_TXCIE] nor
      [UART_UDRIE] is defined, [uart_printf] exactly when in addition
      [UART_STDMODE], as the [#if] of line 285 evaluates it, is 1 or 2, and
      [uart_getchar], [uart_scanchar] and [uart_error_flags] exactly when
      [UART_RXCIE] is not defined.  [UART_STDMODE] evaluates to 1 when the
      user leaves it undefined and to [z] when the user defines it as the
      number [z]. *)
Theorem polling_prototypes_by_config u s :
    u "UART_H_" = None -> preprocess u = inr s ->
    (In "uart_putchar" (pp_decls s) <->
       defined u "UART_TXCIE" = false /\ defined u "UART_UDRIE" = false) /\
    (In "uart_printf" (pp_decls s) <->
       defined u "UART_TXCIE" = false /\ defined u "UART_UDRIE" = false /\
       (value (pp_macros s) "UART_STDMODE" = Some 1%Z \/
        value (pp_macros s) "UART_STDMODE" = Some 2%Z)) /\
    (In "uart_getchar" (pp_decls s) <-> defined u "UART_RXCIE" = false) /\
    (In "uart_scanchar" (pp_decls s) <-> defined u "UART_RXCIE" = false) /\
    (In "uart_error_flags" (pp_decls s) <-> defined u "UART_RXCIE" = false) /\
    (u "UART_STDMODE" = None -> value (pp_macros s) "UART_STDMODE" = Some 1%Z) /\
    (forall z, u "UART_STDMODE" = Some (MNum z) ->
       value (pp_macros s) "UART_STDMODE" = Some z).
  Proof.
    intros Hu Hp.
    destruct (preprocess_macros u s Hu Hp) as (_ & _ & _ & _ & Hs & _).
    assert (D1 : u "UART_STDMODE" = None -> value (pp_macros s) "UART_STDMODE" = Some 1%Z)
      by (intros H; apply value_num; rewrite Hs, H; reflexivity).
    assert (D2 : forall z, u "UART_STDMODE" = Some (MNum z) ->
                   value (pp_macros s) "UART_STDMODE" = Some z)
      by (intros z H; apply value_num; rewrite Hs, H; reflexivity).
    rewrite (preprocess_decls u s Hu Hp).
    refine (conj _ (conj _ (conj _ (conj _ (conj _ (conj D1 D2)))))); decls_cases u.
  Qed.

  (** [#define MODE 2] and [#define UART_STDMODE MODE]: [UART_STDMODE]
      evaluates to 2 on line 285. *)
Lemma polling_prototypes_by_config_witness :
    exists s, preprocess (user [("MODE", MNum 2); ("UART_STDMODE", MTok "MODE")]) = inr s /\
    ((In "uart_putchar" (pp_decls s) <->
       defined (user [("MODE", MNum 2); ("UART_STDMODE", MTok "MODE")]) "UART_TXCIE" = false /\
       defined (user [("MODE", MNum 2); ("UART_STDMODE", MTok "MODE")]) "UART_UDRIE" = false) /\
     (In "uart_printf" (pp_decls s) <->
       defined (user [("MODE", MNum 2); ("UART_STDMODE", MTok "MODE")]) "UART_TXCIE" = false /\
       defined (user [("MODE", MNum 2); ("UART_STDMODE", MTok "MODE")]) "UART_UDRIE" = false /\
       (value (pp_macros s) "UART_STDMODE" = Some 1%Z \/
        value (pp_macros s) "UART_STDMODE" = Some 2%Z)) /\
     (In "uart_getchar" (pp_decls s) <->
       defined (user [("MODE", MNum 2); ("UART_STDMODE", MTok "MODE")]) "UART_RXCIE" = false) /\
     (In "uart_scanchar" (pp_decls s) <->
       defined (user [("MODE", MNum 2); ("UART_STDMODE", MTok "MODE")]) "UART_RXCIE" = false) /\
     (In "uart_error_flags" (pp_decls s) <->
       defined (user [("MODE", MNum 2); ("UART_STDMODE", MTok "MODE")]) "UART_RXCIE" = false) /\
     (user [("MODE", MNum 2); ("UART_STDMODE", MTok "MODE")] "UART_STDMODE" = None ->
       value (pp_macros s) "UART_STDMODE" = Some 1%Z) /\
     (forall z, user [("MODE", MNum 2); ("UART_STDMODE", MTok "MODE")] "UART_STDMODE" =
                  Some (MNum z) ->
       value (pp_macros s) "UART_STDMODE" = Some z)).
  Proof.
    destruct (preprocess (user [("MODE", MNum 2); ("UART_STDMODE", MTok "MODE")]))
      as [e | s] eqn:E; [vm_compute in E; discriminate |].
    exists s. split; [reflexivity |].
    apply (polling_prototypes_by_config (user [("MODE", MNum 2); ("UART_STDMODE", MTok "MODE")]));
      [reflexivity | exact E].
  Defined.

  (** The configuration above: [uart_printf] is declared, [uart_scanf] is
      not. *)
Lemma stdmode_through_macro :
    exists s, preprocess (user [("MODE", MNum 2); ("UART_STDMODE", MTok "MODE")]) = inr s /\
      In "uart_printf" (pp_decls s) /\ ~ In "uart_scanf" (pp_decls s).
  Proof.
    eval_pp (user [("MODE", MNum 2); ("UART_STDMODE", MTok "MODE")]).
    intuition discriminate.
  Qed.

  (** An empty [UART_STDMODE] leaves the [==] of line 285 without an
      operand: the header is refused. *)
Lemma empty_stdmode_refused :
    preprocess (user [("UART_STDMODE", MEmpty)]) = inl "#if with no expression".
  Proof. vm_compute. reflexivity. Qed.

  (** C9, counterexample: with [UART_STDMODE] 2 (printf only) and
      [UART_RXCIE] undefined, [uart_clear] is not declared. *)
Lemma clear_absent_in_printf_only_mode :
    exists s, preprocess (user [("UART_STDMODE", MNum 2)]) = inr s /\
      defined (user [("UART_STDMODE", MNum 2)]) "UART_RXCIE" = false /\
      In "uart_getchar" (pp_decls s) /\ ~ In "uart_clear" (pp_decls s).
  Proof.
    eval_pp (user [("UART_STDMODE", MNum 2)]). intuition discriminate.
  Qed.

  (** C9, as amended.  For every user configuration the header accepts,
      [uart_clear] is declared exactly when [UART_RXCIE] is not defined and
      [UART_STDMODE], as the [#if] of line 295 evaluates it, is 1
      (printf and scanf) or 3 (scanf only). *)
Theorem clear_prototype_by_config u s :
    u "UART_H_" = None -> preprocess u = inr s ->
    (In "uart_clear" (pp_decls s) <->
       defined u "UART_RXCIE" = false /\
       (value (pp_macros s) "UART_STDMODE" = Some 1%Z \/
        value (pp_macros s) "UART_STDMODE" = Some 3%Z)).
  Proof.
    intros Hu Hp. rewrite (preprocess_decls u s Hu Hp). decls_cases u.
  Qed.

  (** [#define MODE 3] and [#define UART_STDMODE MODE]. *)
Lemma clear_prototype_by_config_witness :
    exists s, preprocess (user [("MODE", MNum 3); ("UART_STDMODE", MTok "MODE")]) = inr s /\
    (In "uart_clear" (pp_decls s) <->
       defined (user [("MODE", MNum 3); ("UART_STDMODE", MTok "MODE")]) "UART_RXCIE" = false /\
       (value (pp_macros s) "UART_STDMODE" = Some 1%Z \/
        value (pp_macros s) "UART_STDMODE" = Some 3%Z)).
  Proof.
    destruct (preprocess (user [("MODE", MNum 3); ("UART_STDMODE", MTok "MODE")]))
      as [e | s] eqn:E; [vm_compute in E; discriminate |].
    exists s. split; [reflexivity |].
    apply (clear_prototype_by_config (user [("MODE", MNum 3); ("UART_STDMODE", MTok "MODE")]));
      [reflexivity | exact E].
  Defined.

  (** C10.  In every configuration the header accepts, each of F_CPU,
      UART_BAUDRATE, UART_DATASIZE, UART_PARITY, UART_STOPBITS,
      UART_HANDSHAKE and UART_STDMODE keeps the user's value or, when the
      user left it undefined, gets 12000000, 9600, 8, 0 (no parity), 1,
      0 (no flow control) and 1 (printf and scanf); UART_RXC_ECHO stays
      undefined (echo off) unless the user defines it. *)
Theorem default_configuration u s :
    u "UART_H_" = None -> preprocess u = inr s ->
    pp_macros s "F_CPU" = or_default (u "F_CPU") (MNum 12000000) /\
    pp_macros s "UART_BAUDRATE" = or_default (u "UART_BAUDRATE") (MNum 9600) /\
    pp_macros s "UART_DATASIZE" = or_default (u "UART_DATASIZE") (MNum 8) /\
    pp_macros s "UART_PARITY" = or_default (u "UART_PARITY") (MNum 0) /\
    pp_macros s "UART_STOPBITS" = or_default (u "UART_STOPBITS") (MNum 1) /\
    pp_macros s "UART_HANDSHAKE" = or_default (u "UART_HANDSHAKE") (MNum 0) /\
    pp_macros s "UART_STDMODE" = or_default (u "UART_STDMODE") (MNum 1) /\
    (u "_DOXYGEN_" = None -> pp_macros s "UART_RXC_ECHO" = u "UART_RXC_ECHO").
  Proof.
    intros Hu Hp. destruct (preprocess_inv u s Hu Hp) as (s1 & Hc & Hm & _).
    rewrite Hm.
    rewrite (config_f_cpu _ _ _ Hc), (config_baudrate _ _ _ Hc),
      (config_datasize _ _ _ Hc), (config_parity _ _ _ Hc),
      (config_stopbits _ _ _ Hc), (config_handshake _ _ _ Hc),
      (config_stdmode _ _ _ Hc).
    cbn [pp_macros]. rewrite !set_macro_other by discriminate.
    repeat split; try reflexivity.
    intros Hd. rewrite (config_rxc_echo _ _ _ Hc); cbn [pp_macros];
      rewrite set_macro_other by discriminate; [reflexivity | exact Hd].
  Qed.

  (** The build with no user settings: it is accepted, and its table holds
      every default. *)
Lemma default_configuration_witness :
    exists s, preprocess no_macros = inr s /\
    pp_macros s "F_CPU" = Some (MNum 12000000) /\
    pp_macros s "UART_BAUDRATE" = Some (MNum 9600) /\
    pp_macros s "UART_DATASIZE" = Some (MNum 8) /\
    pp_macros s "UART_PARITY" = Some (MNum 0) /\
    pp_macros s "UART_STOPBITS" = Some (MNum 1) /\
    pp_macros s "UART_HANDSHAKE" = Some (MNum 0) /\
    pp_macros s "UART_STDMODE" = Some (MNum 1) /\
    pp_macros s "UART_RXC_ECHO" = None.
  Proof.
    destruct (preprocess no_macros) as [e | s] eqn:E;
      [vm_compute in E; discriminate |].
    exists s. split; [reflexivity |].
    destruct (default_configuration no_macros s eq_refl E)
      as (H1 & H2 & H3 & H4 & H5 & H6 & H7 & H8).
    rewrite H1, H2, H3, H4, H5, H6, H7, H8 by reflexivity.
    repeat split.
  Defined.

End HeaderClaims.

(** * Properties of the runtime operations *)

Module DriverFacts.

Import Driver.
Local Open Scope list_scope.

Section Facts.

Variable mode : flow.
Variables xon xoff : Z.
Variable echo : bool.

Lemma keeps_err_refl st : keeps_err st st.
    Proof. intros i H. exact H. Qed.

Lemma keeps_err_trans s1 s2 s3 :
      keeps_err s1 s2 -> keeps_err s2 s3 -> keeps_err s1 s3.
    Proof. intros H1 H2 i H. apply H2, H1, H. Qed.

Lemma keeps_err_lor st x st' :
      keeps_err (set_err (Z.lor (err st) x) st') st' ->
      keeps_err st st'.
    Proof.
      intros H i Hi. apply H. cbn. rewrite Z.lor_spec, Hi. reflexivity.
    Qed.

Lemma put_step_err b e pc st pc' st' l :
      put_step mode b e pc st = (pc', st', l) -> err st' = err st.
    Proof.
      unfold put_step. destruct e, pc;
        repeat match goal with |- context [if ?c then _ else _] => destruct c end;
        intros H; injection H as <- <- <-; reflexivity.
    Qed.

Lemma put_run_err b es pc st pc' st' l :
      put_run mode b es pc st = (pc', st', l) -> err st' = err st.
    Proof.
      revert pc st pc' st' l. induction es as [| e es IH]; intros pc st pc' st' l H.
      - injection H as <- <- <-. reflexivity.
      - cbn in H.
        destruct (put_step mode b e pc st) as [[pc1 st1] l1] eqn:E1.
        destruct (put_run mode b es pc1 st1) as [[pc2 st2] l2] eqn:E2.
        injection H as <- <- <-.
        rewrite (IH _ _ _ _ _ E2). exact (put_step_err _ _ _ _ _ _ _ E1).
    Qed.

    (** Receiving: the flags only gain the status bits of the frames read. *)
Lemma receive_from_keeps q st f st' :
      receive_from mode xon xoff echo q st = Some (f, st') ->
      keeps_err st st' /\
      (forall i, Z.testbit (f_status f) i = true -> Z.testbit (err st') i = true).
    Proof.
      revert st. induction q as [| g q IH]; intros st H; [discriminate |].
      cbn in H.
      set (st1 := set_err (Z.lor (err st) (f_status g)) (set_rx q st)) in H.
      assert (K1 : keeps_err st st1).
      { intros i Hi. cbn. rewrite Z.lor_spec, Hi. reflexivity. }
      destruct (is_software mode && Z.eqb (f_data g) xon).
      - destruct (IH _ H) as [K2 Hs]. split; [| exact Hs].
        eapply keeps_err_trans; [exact K1 |].
        eapply keeps_err_trans; [| exact K2]. intros i Hi. exact Hi.
      - destruct (is_software mode && Z.eqb (f_data g) xoff).
        + destruct (IH _ H) as [K2 Hs]. split; [| exact Hs].
          eapply keeps_err_trans; [exact K1 |].
          eapply keeps_err_trans; [| exact K2]. intros i Hi. exact Hi.
        + injection H as <- <-. split.
          * destruct echo; exact K1.
          * intros i Hi. destruct echo; cbn; rewrite Z.lor_spec, Hi, orb_true_r;
              reflexivity.
    Qed.

Lemma exec_keeps o st st' :
      o <> OClear -> exec mode xon xoff echo o st = Some st' -> keeps_err st st'.
    Proof.
      intros Hne. destruct o; cbn.
      - intros H. injection H as <-. intros i Hi. exact Hi.
      - unfold uart_getchar, receive.
        destruct (receive_from mode xon xoff echo (rx_fifo st) st)
          as [[f st1] |] eqn:E; intros H; [| discriminate].
        injection H as <-. exact (proj1 (receive_from_keeps _ _ _ _ E)).
      - unfold uart_scanchar, receive.
        destruct (receive_from mode xon xoff echo (rx_fifo st) st)
          as [[f st1] |] eqn:E; intros H; [| discriminate].
        injection H as <-. exact (proj1 (receive_from_keeps _ _ _ _ E)).
      - intros H. injection H as <-. apply keeps_err_refl.
      - congruence.
      - intros H. injection H as <-. unfold uart_handshake.
        destruct mode; [apply keeps_err_refl | |]; cbn;
          [destruct (handshake_eqb s (last_sent st)) |]; intros i Hi; exact Hi.
      - destruct (put_run mode b es WaitReady st) as [[pc st1] l] eqn:E.
        destruct pc; intros H; try discriminate.
        injection H as <-. intros i Hi. rewrite (put_run_err _ _ _ _ _ _ _ E). exact Hi.
    Qed.

    (** A successful receive took one frame [f] off the hardware queue,
        after consuming only XON/XOFF frames in software mode. *)
Lemma receive_from_split q st f st' :
      receive_from mode xon xoff echo q st = Some (f, st') ->
      exists pre, q = pre ++ f :: rx_fifo st' /\
        Forall (fun g => is_software mode && (Z.eqb (f_data g) xon || Z.eqb (f_data g) xoff)
                         = true) pre /\
        is_software mode && (Z.eqb (f_data f) xon || Z.eqb (f_data f) xoff) = false.
    Proof.
      revert st. induction q as [| g q IH]; intros st H; [discriminate |].
      cbn in H.
      destruct (is_software mode && Z.eqb (f_data g) xon) eqn:Hon.
      - destruct (IH _ H) as (pre & Hq & Hpre & Hf).
        exists (g :: pre). split; [cbn; congruence |]. split; [| exact Hf].
        constructor; [| exact Hpre].
        apply andb_true_iff in Hon as [-> ->]. reflexivity.
      - destruct (is_software mode && Z.eqb (f_data g) xoff) eqn:Hoff.
        + destruct (IH _ H) as (pre & Hq & Hpre & Hf).
          exists (g :: pre). split; [cbn; congruence |]. split; [| exact Hf].
          constructor; [| exact Hpre].
          apply andb_true_iff in Hoff as [-> ->]. apply orb_true_r.
        + injection H as <- <-. exists []. split.
          * destruct echo; reflexivity.
          * split; [constructor |].
            destruct (is_software mode); [| reflexivity].
            cbn in *. rewrite Hon, Hoff. reflexivity.
    Qed.

Lemma put_step_shape b e pc st pc' st' l :
      put_step mode b e pc st = (pc', st', l) ->
      tx st' = tx st ++ map (fun x => fst (fst x)) l /\
      (pc = Sent -> pc' = Sent /\ l = []) /\
      (pc <> Sent -> (l = [] /\ pc' <> Sent) \/ (l = [(b, true, true)] /\ pc' = Sent)).
    Proof.
      unfold put_step. destruct e, pc;
        repeat match goal with |- context [if ?c then _ else _] => destruct c end;
        intros H; injection H as <- <- <-; cbn;
        rewrite ?app_nil_r; (split; [reflexivity |]);
        split; intros Hs;
        first [ split; reflexivity
              | congruence
              | left; split; [reflexivity | discriminate]
              | right; split; reflexivity ].
    Qed.

Lemma put_run_shape b es pc st pc' st' l :
      put_run mode b es pc st = (pc', st', l) ->
      tx st' = tx st ++ map (fun x => fst (fst x)) l /\
      (pc = Sent -> pc' = Sent /\ l = []) /\
      (pc <> Sent -> (l = [] /\ pc' <> Sent) \/ (l = [(b, true, true)] /\ pc' = Sent)).
    Proof.
      revert pc st pc' st' l. induction es as [| e es IH]; intros pc st pc' st' l H.
      - injection H as <- <- <-. cbn. rewrite app_nil_r. intuition.
      - cbn in H.
        destruct (put_step mode b e pc st) as [[pc1 st1] l1] eqn:E1.
        destruct (put_run mode b es pc1 st1) as [[pc2 st2] l2] eqn:E2.
        injection H as <- <- <-.
        destruct (put_step_shape _ _ _ _ _ _ _ E1) as (T1 & S1 & N1).
        destruct (IH _ _ _ _ _ E2) as (T2 & S2 & N2).
        split; [rewrite T2, T1, map_app, app_assoc; reflexivity |].
        split.
        + intros ->. destruct (S1 eq_refl) as [-> ->].
          destruct (S2 eq_refl) as [-> ->]. auto.
        + intros Hpc. destruct (N1 Hpc) as [[-> Hpc1] | [-> ->]].
          * destruct (N2 Hpc1) as [[-> Hpc2] | [-> ->]]; [left | right]; cbn; auto.
          * destruct (S2 eq_refl) as [-> ->]. right. cbn. auto.
    Qed.

End Facts.

End DriverFacts.

(** * Claims on the runtime operations (modelled from the spec) *)

Module DriverClaims.

Import Driver DriverFacts.
Local Open Scope list_scope.

  (** C4.  With hardware flow control, one call [uart_handshake s] both
      requests [s] (it drives RTS high for Ready, low for Paused) and
      reports the state given by the CTS input: Ready when CTS is high,
      Paused when it is low, whatever [s] is. *)
Theorem hardware_handshake_reports_cts xon xoff s st :
    fst (uart_handshake FlowHardware xon xoff s st) =
      (if cts st then UART_Handshake_Ready else UART_Handshake_Paused) /\
    rts (snd (uart_handshake FlowHardware xon xoff s st)) =
      handshake_eqb s UART_Handshake_Ready.
  Proof. split; reflexivity. Qed.

  (** C5.  Along any sequence of calls and frame arrivals that does not
      call [uart_clear], a bit set in the error flags stays set; clearing
      resets every bit. *)
Theorem error_flags_sticky mode xon xoff echo os st st' i :
    ~ In OClear os ->
    run mode xon xoff echo os st = Some st' ->
    Z.testbit (uart_error_flags st) i = true ->
    Z.testbit (uart_error_flags st') i = true /\
    uart_error_flags (uart_clear st') = 0%Z.
  Proof.
    intros Hno Hrun Hi. split; [| reflexivity].
    revert st Hrun Hi. induction os as [| o os IH]; intros st Hrun Hi.
    - injection Hrun as <-. exact Hi.
    - cbn in Hrun. destruct (exec mode xon xoff echo o st) as [st1 |] eqn:E;
        [| discriminate].
      apply (IH (fun H => Hno (or_intror H)) st1 Hrun).
      refine (exec_keeps mode xon xoff echo o st st1 _ E i Hi).
      intros ->. apply Hno. left. reflexivity.
  Qed.

  (** A frame with a framing error, then a good frame read after it: the
      framing-error bit set by the first receive is still reported. *)
Lemma error_flags_sticky_witness :
    exists st',
      run FlowOff 17 19 false
        [OArrive (mk_frame 66 0); OGetchar; OErrorFlags;
         OHandshake UART_Handshake_Ready; OPutchar 67 [Poll; Poll]]
        (mk_uart [] 16 UART_Handshake_Ready UART_Handshake_Ready true true true [])
      = Some st' /\
      Z.testbit (uart_error_flags st') FE = true /\
      uart_error_flags (uart_clear st') = 0%Z.
  Proof.
    eexists. split; [reflexivity |].
    apply (error_flags_sticky FlowOff 17 19 false
             [OArrive (mk_frame 66 0); OGetchar; OErrorFlags;
              OHandshake UART_Handshake_Ready; OPutchar 67 [Poll; Poll]]
             (mk_uart [] 16 UART_Handshake_Ready UART_Handshake_Ready true true true [])).
    - cbn. intuition discriminate.
    - reflexivity.
    - reflexivity.
  Defined.

  (** C6.  [uart_getchar] returns the data and the status of one and the
      same frame, the one it removes from the receiver, and
      [uart_scanchar] returns that same pair with the roles swapped. *)
Theorem getchar_data_and_status_together mode xon xoff echo st c status st' :
    uart_getchar mode xon xoff echo st = Some (c, status, st') ->
    exists pre f,
      rx_fifo st = pre ++ f :: rx_fifo st' /\
      c = f_data f /\ status = f_status f /\
      uart_scanchar mode xon xoff echo st = Some (status, c, st').
  Proof.
    unfold uart_getchar, uart_scanchar, receive.
    destruct (receive_from mode xon xoff echo (rx_fifo st) st) as [[f st1] |] eqn:E;
      intros H; [| discriminate].
    injection H as <- <- <-.
    destruct (receive_from_split mode xon xoff echo _ _ _ _ E) as (pre & Hq & _ & _).
    exists pre, f. auto.
  Qed.

Lemma getchar_data_and_status_together_witness :
    exists pre f,
      rx_fifo (mk_uart [mk_frame 65 8; mk_frame 66 0] 0 UART_Handshake_Ready
                 UART_Handshake_Ready true true true []) =
        pre ++ f :: [mk_frame 66 0] /\
      65%Z = f_data f /\ 8%Z = f_status f /\
      uart_scanchar FlowOff 17 19 false
        (mk_uart [mk_frame 65 8; mk_frame 66 0] 0 UART_Handshake_Ready
           UART_Handshake_Ready true true true []) =
        Some (8%Z, 65%Z, mk_uart [mk_frame 66 0] 8 UART_Handshake_Ready
                           UART_Handshake_Ready true true true []).
  Proof.
    apply (getchar_data_and_status_together FlowOff 17 19 false
             (mk_uart [mk_frame 65 8; mk_frame 66 0] 0 UART_Handshake_Ready
                UART_Handshake_Ready true true true [])
             65 8
             (mk_uart [mk_frame 66 0] 8 UART_Handshake_Ready
                UART_Handshake_Ready true true true [])).
    reflexivity.
  Defined.

  (** C7.  With flow control active, [uart_putchar b] loads [b] into the
      transmit data register only at a moment when the handshake state is
      Ready (in hardware mode: CTS is high) and the register is empty: for
      every schedule of CPU polls, CTS changes and register drains, either
      nothing has been loaded and the call is still waiting, or [b] has been
      loaded exactly once, logged with Ready and empty, and the call has
      returned; nothing else is transmitted. *)
Theorem putchar_loads_only_when_ready_and_empty mode b es st :
    let '(pc, st', loads) := put_run mode b es WaitReady st in
    tx st' = tx st ++ map (fun x => fst (fst x)) loads /\
    ((loads = [] /\ pc <> Sent) \/ (loads = [(b, true, true)] /\ pc = Sent)).
  Proof.
    destruct (put_run mode b es WaitReady st) as [[pc st'] l] eqn:E.
    destruct (put_run_shape mode b es WaitReady st pc st' l E) as (T & _ & N).
    split; [exact T |]. apply N. discriminate.
  Qed.

  (** CTS high and the data register busy when [uart_putchar 65] starts;
      CTS drops before the register drains: the call goes back to waiting
      for Ready and sends 65 only after CTS is high again. *)
Lemma putchar_waits_out_cts_drop :
    put_run FlowHardware 65 [Poll; SetCts false; Drain; Poll; Poll; SetCts true; Poll; Poll]
      WaitReady (mk_uart [] 0 UART_Handshake_Ready UART_Handshake_Ready true true false [])
    = (Sent,
       mk_uart [] 0 UART_Handshake_Ready UART_Handshake_Ready true true false [65%Z],
       [(65%Z, true, true)]).
  Proof. reflexivity. Qed.

  (** The same schedule without CTS coming back: nothing is sent. *)
Lemma putchar_holds_while_cts_low :
    put_run FlowHardware 65 [Poll; SetCts false; Drain; Poll; Poll; Poll]
      WaitReady (mk_uart [] 0 UART_Handshake_Ready UART_Handshake_Ready true true false [])
    = (WaitReady,
       mk_uart [] 0 UART_Handshake_Ready UART_Handshake_Ready false true true [],
       []).
  Proof. reflexivity. Qed.

  (** C8.  With software flow control, the byte returned by [uart_getchar]
      or [uart_scanchar] is never XON or XOFF: the frames consumed before it
      are exactly XON/XOFF frames, and it comes from the first other frame. *)
Theorem software_flow_control_consumes_xon_xoff xon xoff echo st c status st' :
    (uart_getchar FlowSoftware xon xoff echo st = Some (c, status, st') \/
     uart_scanchar FlowSoftware xon xoff echo st = Some (status, c, st')) ->
    c <> xon /\ c <> xoff /\
    exists pre, rx_fifo st = pre ++ mk_frame c status :: rx_fifo st' /\
      Forall (fun g => f_data g = xon \/ f_data g = xoff) pre.
  Proof.
    unfold uart_getchar, uart_scanchar, receive.
    destruct (receive_from FlowSoftware xon xoff echo (rx_fifo st) st)
      as [[[d t] st1] |] eqn:E;
      intros [H | H]; try discriminate; injection H as <- <- <-;
      destruct (receive_from_split FlowSoftware xon xoff echo _ _ _ _ E)
        as (pre & Hq & Hpre & Hf);
      cbn in Hf; apply orb_false_iff in Hf as [Hon Hoff];
      apply Z.eqb_neq in Hon, Hoff;
      (split; [exact Hon | split; [exact Hoff |]]);
      exists pre; (split; [exact Hq |]);
      refine (Forall_impl _ _ Hpre); intros g Hg; cbn in Hg;
      apply orb_true_iff in Hg as [Hg | Hg]; apply Z.eqb_eq in Hg; auto.
  Qed.

Lemma software_flow_control_consumes_xon_xoff_witness :
    (66%Z <> 17%Z /\ 66%Z <> 19%Z /\
     exists pre,
       rx_fifo (mk_uart [mk_frame 19 0; mk_frame 17 0; mk_frame 66 0] 0
                  UART_Handshake_Ready UART_Handshake_Ready true true true []) =
         pre ++ mk_frame 66 0 :: [] /\
       Forall (fun g => f_data g = 17%Z \/ f_data g = 19%Z) pre).
  Proof.
    apply (software_flow_control_consumes_xon_xoff 17 19 false
             (mk_uart [mk_frame 19 0; mk_frame 17 0; mk_frame 66 0] 0
                UART_Handshake_Ready UART_Handshake_Ready true true true [])
             66 0
             (mk_uart [] 0 UART_Handshake_Ready UART_Handshake_Ready true true true [])).
    left. reflexivity.
  Defined.

End DriverClaims.


(** * Further facts on the header *)

Module UartHMore.

Import UartH UartHDefaults.
Local Open Scope list_scope.

Lemma total_skip : total skip.
  Proof. intros s. exists s. reflexivity. Qed.

Lemma total_define k v : total (define k v).
  Proof. intros s. eexists. reflexivity. Qed.

Lemma total_declare f : total (declare f).
  Proof. intros s. eexists. reflexivity. Qed.

Lemma total_seq (m k : PP unit) : total m -> total k -> total (m ;; k).
  Proof.
    intros Hm Hk s. destruct (Hm s) as [s1 E1]. destruct (Hk s1) as [s2 E2].
    exists s2. unfold bind. rewrite E1. exact E2.
  Qed.

Lemma total_cond c (t e : PP unit) : total t -> total e -> total (cond c t e).
  Proof. intros Ht He s. unfold cond. destruct (c (pp_macros s)); auto. Qed.

Lemma bind_eq (m : PP unit) (k : PP unit) s r :
    m s = r -> (m ;; k) s = match r with inl e => inl e | inr (_, s') => k s' end.
  Proof. intros E. unfold bind. rewrite E. reflexivity. Qed.

  (** [#if UART_HANDSHAKE == 2] (line 131) follows [#define UART_HANDSHAKE 0]
      and never holds: the block acts as its live part. *)
Lemma cfg_handshake_live s :
    cfg_handshake s =
    ifndef "UART_HANDSHAKE"
      (define "UART_HANDSHAKE" (MNum 0) ;;
       ifndef "UART_HANDSHAKE_XON" (define "UART_HANDSHAKE_XON" (MNum 17)) ;;
       ifndef "UART_HANDSHAKE_XOFF" (define "UART_HANDSHAKE_XOFF" (MNum 19))) s.
  Proof.
    unfold cfg_handshake, ifndef, cond.
    destruct (defined (pp_macros s) "UART_HANDSHAKE"); reflexivity.
  Qed.

Lemma preserves_cfg_handshake R :
    preserves R
      (ifndef "UART_HANDSHAKE"
        (define "UART_HANDSHAKE" (MNum 0) ;;
         ifndef "UART_HANDSHAKE_XON" (define "UART_HANDSHAKE_XON" (MNum 17)) ;;
         ifndef "UART_HANDSHAKE_XOFF" (define "UART_HANDSHAKE_XOFF" (MNum 19)))) ->
    preserves R cfg_handshake.
  Proof. intros H s a s' E. rewrite cfg_handshake_live in E. exact (H s a s' E). Qed.

Lemma total_ext (m m' : PP unit) : (forall s, m s = m' s) -> total m' -> total m.
  Proof. intros E H s. rewrite E. apply H. Qed.

Lemma total_cfg_handshake : total cfg_handshake.
  Proof.
    apply (total_ext _ _ cfg_handshake_live). unfold ifndef.
    repeat first [ apply total_seq | apply total_cond | apply total_skip | apply total_define ].
  Qed.

Lemma neq_of_notin k k' : ~ In k header_macros -> In k' header_macros -> k' <> k.
  Proof. intros Hk Hk' ->. exact (Hk Hk'). Qed.

End UartHMore.

Ltac total_tac :=
  unfold UartH.cfg_f_cpu, UartH.cfg_baudrate, UartH.cfg_datasize,
    UartH.cfg_parity, UartH.cfg_stopbits, UartH.cfg_rxc_echo,
    UartH.cfg_stdmode, UartH.cfg_rxcie, UartH.cfg_txcie,
    UartH.includes, include, ifdef, ifndef;
  repeat first [ apply UartHMore.total_cfg_handshake
               | apply UartHMore.total_seq | apply UartHMore.total_cond
               | apply UartHMore.total_skip | apply UartHMore.total_define
               | apply UartHMore.total_declare ].

(** Frame of a macro [k] outside [header_macros], [Hk] its hypothesis. *)
Ltac frame_other Hk :=
  repeat match goal with
  | |- preserves _ UartH.cfg_handshake =>
      apply UartHMore.preserves_cfg_handshake; unfold ifndef
  | |- preserves (same_macro ?k) _ =>
      first [ apply (preserves_seq _ (same_macro_trans k))
            | apply preserves_cond
            | apply preserves_if_expr
            | apply (preserves_skip _ (same_macro_refl k))
            | apply (preserves_include _ (same_macro_refl k))
            | apply preserves_error
            | apply preserves_declare_macro
            | apply preserves_define_other; apply (UartHMore.neq_of_notin _ _ Hk);
              cbn; repeat (first [left; reflexivity | right]) ]
  end.

Module UartHMore2.

Import UartH UartHDefaults UartHMore.
Local Open Scope list_scope.

Lemma config_frame_other k : ~ In k header_macros -> preserves (same_macro k) config.
  Proof.
    intros Hk.
    unfold config, cfg_f_cpu, cfg_baudrate, cfg_datasize, cfg_parity, cfg_stopbits,
      cfg_rxc_echo, cfg_stdmode, cfg_rxcie, cfg_txcie, cfg_udrie, ifdef, ifndef.
    frame_other Hk.
  Qed.

Lemma seq_total_keys (m k : PP unit) t d s :
    total m -> preserves (same_macro "UART_TXCIE") m ->
    preserves (same_macro "UART_UDRIE") m ->
    pp_macros s "UART_TXCIE" = t -> pp_macros s "UART_UDRIE" = d ->
    (forall s', pp_macros s' "UART_TXCIE" = t -> pp_macros s' "UART_UDRIE" = d ->
       exists s1, pp_macros s1 "UART_TXCIE" = t /\ pp_macros s1 "UART_UDRIE" = d /\
                  k s' = cfg_udrie s1) ->
    exists s1, pp_macros s1 "UART_TXCIE" = t /\ pp_macros s1 "UART_UDRIE" = d /\
               (m ;; k) s = cfg_udrie s1.
  Proof.
    intros Ht H1 H2 Et Ed Hk. destruct (Ht s) as [s' E].
    specialize (H1 _ _ _ E). specialize (H2 _ _ _ E). unfold same_macro in *.
    destruct (Hk s') as (s1 & A & B & C); [congruence | congruence |].
    exists s1. split; [exact A | split; [exact B |]].
    unfold bind. rewrite E. exact C.
  Qed.

  (** Every block before the conflict check runs through and keeps
      [UART_TXCIE] and [UART_UDRIE]. *)
Lemma config_reaches_udrie s :
    exists s1, pp_macros s1 "UART_TXCIE" = pp_macros s "UART_TXCIE" /\
               pp_macros s1 "UART_UDRIE" = pp_macros s "UART_UDRIE" /\
               config s = cfg_udrie s1.
  Proof.
    unfold config.
    repeat (apply seq_total_keys;
            [total_tac | preserve_tac | preserve_tac | reflexivity || assumption
            | reflexivity || assumption | intros ? ? ?]).
    eexists. split; [eassumption | split; [eassumption | reflexivity]].
  Qed.

End UartHMore2.

Module UartHMore3.

Import UartH UartHDefaults UartHMore UartHMore2.
Local Open Scope list_scope.

Lemma cfg_udrie_result s :
    cfg_udrie s =
    if defined (pp_macros s) "UART_UDRIE" then inr (tt, s)
    else if defined (pp_macros s) "UART_TXCIE"
         then inl "UART_TXCIE and UART_UDRIE cannot be used together"
         else inr (tt, s).
  Proof.
    unfold cfg_udrie, ifndef, ifdef, cond.
    destruct (defined (pp_macros s) "UART_UDRIE"), (defined (pp_macros s) "UART_TXCIE");
      reflexivity.
  Qed.

Lemma cfg_handshake_xon s a s' : cfg_handshake s = inr (a, s') ->
    pp_macros s' "UART_HANDSHAKE_XON" =
      if defined (pp_macros s) "UART_HANDSHAKE" then pp_macros s "UART_HANDSHAKE_XON"
      else or_default (pp_macros s "UART_HANDSHAKE_XON") (MNum 17).
  Proof.
    rewrite cfg_handshake_live. unfold ifndef at 1, cond at 1.
    destruct (defined (pp_macros s) "UART_HANDSHAKE").
    - intros H. injection H as _ <-. reflexivity.
    - intros H. destruct (bind_inv _ _ _ _ _ H) as (a1 & s1 & H1 & H2).
      destruct (bind_inv _ _ _ _ _ H2) as (a2 & s2 & H3 & H4).
      pose proof (preserves_define_other "UART_HANDSHAKE_XON" "UART_HANDSHAKE" (MNum 0)
                    ltac:(discriminate) _ _ _ H1) as E1.
      apply ifndef_define_default in H3.
      assert (E3 : same_macro "UART_HANDSHAKE_XON" s2 s')
        by (refine ((_ : preserves (same_macro "UART_HANDSHAKE_XON")
                           (ifndef "UART_HANDSHAKE_XOFF"
                              (define "UART_HANDSHAKE_XOFF" (MNum 19)))) _ _ _ H4);
            preserve_tac).
      unfold same_macro in *. congruence.
  Qed.

Lemma cfg_handshake_xoff s a s' : cfg_handshake s = inr (a, s') ->
    pp_macros s' "UART_HANDSHAKE_XOFF" =
      if defined (pp_macros s) "UART_HANDSHAKE" then pp_macros s "UART_HANDSHAKE_XOFF"
      else or_default (pp_macros s "UART_HANDSHAKE_XOFF") (MNum 19).
  Proof.
    rewrite cfg_handshake_live. unfold ifndef at 1, cond at 1.
    destruct (defined (pp_macros s) "UART_HANDSHAKE").
    - intros H. injection H as _ <-. reflexivity.
    - intros H. destruct (bind_inv _ _ _ _ _ H) as (a1 & s1 & H1 & H2).
      destruct (bind_inv _ _ _ _ _ H2) as (a2 & s2 & H3 & H4).
      pose proof (preserves_define_other "UART_HANDSHAKE_XOFF" "UART_HANDSHAKE" (MNum 0)
                    ltac:(discriminate) _ _ _ H1) as E1.
      assert (E2 : same_macro "UART_HANDSHAKE_XOFF" s1 s2)
        by (refine ((_ : preserves (same_macro "UART_HANDSHAKE_XOFF")
                           (ifndef "UART_HANDSHAKE_XON"
                              (define "UART_HANDSHAKE_XON" (MNum 17)))) _ _ _ H3);
            preserve_tac).
      apply ifndef_define_default in H4.
      unfold same_macro in *. congruence.
  Qed.

Lemma cfg_baudrate_baud s a s' : cfg_baudrate s = inr (a, s') ->
    pp_macros s' "BAUD" =
      if defined (pp_macros s) "UART_BAUDRATE" then pp_macros s "BAUD"
      else Some (MTok "UART_BAUDRATE").
  Proof.
    unfold cfg_baudrate, ifndef, cond.
    destruct (defined (pp_macros s) "UART_BAUDRATE").
    - intros H. injection H as _ <-. reflexivity.
    - intros H. destruct (bind_inv _ _ _ _ _ H) as (a1 & s1 & H1 & H2).
      injection H1 as _ <-. injection H2 as _ <-. reflexivity.
  Qed.

Lemma cfg_rxc_echo_echo s a s' : cfg_rxc_echo s = inr (a, s') ->
    pp_macros s' "UART_RXC_ECHO" =
      match pp_macros s "UART_RXC_ECHO" with
      | Some v => Some v
      | None => if defined (pp_macros s) "_DOXYGEN_" then Some MEmpty else None
      end.
  Proof.
    unfold cfg_rxc_echo, ifndef, ifdef, cond, defined at 1.
    destruct (pp_macros s "UART_RXC_ECHO") eqn:E.
    - intros H. injection H as _ <-. exact E.
    - destruct (defined (pp_macros s) "_DOXYGEN_");
        intros H; injection H as _ <-; [reflexivity | exact E].
  Qed.

  (** Carry the equation [Hx] of one block, about the state [x] before it
      and [y] after it, to the start [s] and the end [s'] of [config]. *)
Ltac carry Hx k1 k2 s s' :=
  match type of Hx with
  | lookup (pp_macros ?y) _ = ?rhs =>
      match rhs with
      | context [lookup (pp_macros ?x) _] =>
          let A1 := fresh in let A2 := fresh in let A3 := fresh in
          assert (A1 : pp_macros x k1 = pp_macros s k1) by congruence;
          assert (A2 : pp_macros x k2 = pp_macros s k2) by congruence;
          assert (A3 : pp_macros s' k1 = pp_macros y k1) by congruence;
          rewrite A3, Hx; unfold defined; rewrite A1, A2; reflexivity
      end
  end.

Lemma config_xon s a s' : config s = inr (a, s') ->
    pp_macros s' "UART_HANDSHAKE_XON" =
      if defined (pp_macros s) "UART_HANDSHAKE" then pp_macros s "UART_HANDSHAKE_XON"
      else or_default (pp_macros s "UART_HANDSHAKE_XON") (MNum 17).
  Proof.
    intros Hc. unfold config in Hc. split_seq Hc.
    match goal with
    | Hb : cfg_handshake _ = inr _ |- _ => pose proof (cfg_handshake_xon _ _ _ Hb) as Hx
    end.
    frame_keys2 "UART_HANDSHAKE_XON" "UART_HANDSHAKE".
    carry Hx "UART_HANDSHAKE_XON" "UART_HANDSHAKE" s s'.
  Qed.

Lemma config_xoff s a s' : config s = inr (a, s') ->
    pp_macros s' "UART_HANDSHAKE_XOFF" =
      if defined (pp_macros s) "UART_HANDSHAKE" then pp_macros s "UART_HANDSHAKE_XOFF"
      else or_default (pp_macros s "UART_HANDSHAKE_XOFF") (MNum 19).
  Proof.
    intros Hc. unfold config in Hc. split_seq Hc.
    match goal with
    | Hb : cfg_handshake _ = inr _ |- _ => pose proof (cfg_handshake_xoff _ _ _ Hb) as Hx
    end.
    frame_keys2 "UART_HANDSHAKE_XOFF" "UART_HANDSHAKE".
    carry Hx "UART_HANDSHAKE_XOFF" "UART_HANDSHAKE" s s'.
  Qed.

Lemma config_baud s a s' : config s = inr (a, s') ->
    pp_macros s' "BAUD" =
      if defined (pp_macros s) "UART_BAUDRATE" then pp_macros s "BAUD"
      else Some (MTok "UART_BAUDRATE").
  Proof.
    intros Hc. unfold config in Hc. split_seq Hc.
    match goal with
    | Hb : cfg_baudrate _ = inr _ |- _ => pose proof (cfg_baudrate_baud _ _ _ Hb) as Hx
    end.
    frame_keys2 "BAUD" "UART_BAUDRATE".
    carry Hx "BAUD" "UART_BAUDRATE" s s'.
  Qed.

Lemma config_echo s a s' : config s = inr (a, s') ->
    pp_macros s' "UART_RXC_ECHO" =
      match pp_macros s "UART_RXC_ECHO" with
      | Some v => Some v
      | None => if defined (pp_macros s) "_DOXYGEN_" then Some MEmpty else None
      end.
  Proof.
    intros Hc. unfold config in Hc. split_seq Hc.
    match goal with
    | Hb : cfg_rxc_echo _ = inr _ |- _ => pose proof (cfg_rxc_echo_echo _ _ _ Hb) as Hx
    end.
    frame_keys2 "UART_RXC_ECHO" "_DOXYGEN_".
    carry Hx "UART_RXC_ECHO" "_DOXYGEN_" s s'.
  Qed.

End UartHMore3.

Module UartHMore4.

Import UartH UartHDefaults UartHMore UartHMore2 UartHMore3.
Local Open Scope list_scope.


Lemma defined_set_other u k k' v : k <> k' -> defined (set_macro u k' v) k = defined u k.
  Proof. intros Hne. unfold defined. rewrite set_macro_other by exact Hne. reflexivity. Qed.

  (** The first inclusion, up to the prototypes: [#error] or the state
      after the conflict check. *)
Lemma preprocess_first u s1 :
    u "UART_H_" = None ->
    config (mk_pp (set_macro u "UART_H_" MEmpty) []) = cfg_udrie s1 ->
    preprocess u =
      match cfg_udrie s1 with
      | inl e => inl e
      | inr (_, s2) =>
          match (includes ;; prototypes) s2 with
          | inl e => inl e
          | inr (_, s3) => inr s3
          end
      end.
  Proof.
    intros Hu Ec. unfold preprocess, uart_h, ifndef, cond. cbn [pp_macros].
    unfold defined at 1. rewrite Hu.
    rewrite (bind_eq (define "UART_H_" MEmpty) _ (mk_pp u [])
               (inr (tt, mk_pp (set_macro u "UART_H_" MEmpty) [])) eq_refl).
    cbv beta iota.
    rewrite (bind_eq _ _ _ _ Ec).
    destruct (cfg_udrie s1) as [e | [a s2]]; reflexivity.
  Qed.

Lemma only_error_skip msg : only_error msg skip.
  Proof. intros s e H. discriminate H. Qed.

Lemma only_error_include msg h : only_error msg (include h).
  Proof. intros s e H. discriminate H. Qed.

Lemma only_error_declare msg f : only_error msg (declare f).
  Proof. intros s e H. discriminate H. Qed.

Lemma only_error_seq msg (m k : PP unit) :
    only_error msg m -> only_error msg k -> only_error msg (m ;; k).
  Proof.
    intros Hm Hk s e H. unfold bind in H.
    destruct (m s) as [e' | [a s']] eqn:E.
    - injection H as <-. exact (Hm _ _ E).
    - exact (Hk _ _ H).
  Qed.

Lemma only_error_cond msg c (t e : PP unit) :
    only_error msg t -> only_error msg e -> only_error msg (cond c t e).
  Proof.
    intros Ht He s e' H. unfold cond in H.
    destruct (c (pp_macros s)); [exact (Ht _ _ H) | exact (He _ _ H)].
  Qed.

Lemma only_error_if_expr c (t e : PP unit) :
    only_error "#if with no expression" t -> only_error "#if with no expression" e ->
    only_error "#if with no expression" (if_expr c t e).
  Proof.
    intros Ht He s e' H. unfold if_expr in H.
    destruct (c (pp_macros s)) as [[|] |];
      [exact (Ht _ _ H) | exact (He _ _ H) | injection H as <-; reflexivity].
  Qed.

  (** After the conflict check, only a malformed [#if] can stop the
      header. *)
Lemma includes_prototypes_error :
    only_error "#if with no expression" (includes ;; prototypes).
  Proof.
    unfold includes, prototypes.
    repeat first [ apply only_error_seq | apply only_error_cond | apply only_error_if_expr
                 | apply only_error_skip | apply only_error_declare
                 | apply only_error_include ].
  Qed.

  (** Macros the header never defines keep the user's definition. *)
Lemma preprocess_other u s k :
    ~ In k header_macros -> preprocess u = inr s -> pp_macros s k = u k.
  Proof.
    intros Hk Hp. destruct (u "UART_H_") eqn:Hu.
    - unfold preprocess, uart_h, ifndef, cond in Hp. cbn [pp_macros] in Hp.
      unfold defined at 1 in Hp. rewrite Hu in Hp. injection Hp as <-. reflexivity.
    - destruct (preprocess_inv u s Hu Hp) as (s1 & Hc & Hm & _).
      pose proof (config_frame_other k Hk _ _ _ Hc) as E. unfold same_macro in E.
      rewrite Hm, E. cbn [pp_macros]. apply set_macro_other.
      intros ->. apply Hk. left. reflexivity.
  Qed.








End UartHMore4.

(** * Further properties of the header *)

Module HeaderExtras.

Import UartH UartHDefaults UartHMore UartHMore2 UartHMore3 UartHMore4.
Local Open Scope list_scope.

  (** A first inclusion of uart.h stops on the [#error] of line 268
      exactly when [UART_TXCIE] is defined and [UART_UDRIE] is not.  (In
      the other configurations the header can still be refused for a
      malformed [#if] of lines 279-305, or by the included headers, which
      are not modelled; never with this message.) *)
Theorem header_error_iff_txcie_without_udrie u :
    u "UART_H_" = None ->
    (preprocess u = inl "UART_TXCIE and UART_UDRIE cannot be used together" <->
       defined u "UART_TXCIE" = true /\ defined u "UART_UDRIE" = false).
  Proof.
    intros Hu.
    destruct (config_reaches_udrie (mk_pp (set_macro u "UART_H_" MEmpty) []))
      as (s1 & Ht & Hd & Ec).
    rewrite (preprocess_first u s1 Hu Ec), cfg_udrie_result.
    cbn [pp_macros] in Ht, Hd. rewrite set_macro_other in Ht, Hd by discriminate.
    pose proof (includes_prototypes_error s1) as Herr.
    assert (Dt : defined (pp_macros s1) "UART_TXCIE" = defined u "UART_TXCIE")
      by (unfold defined; rewrite Ht; reflexivity).
    assert (Dd : defined (pp_macros s1) "UART_UDRIE" = defined u "UART_UDRIE")
      by (unfold defined; rewrite Hd; reflexivity).
    rewrite Dt, Dd.
    destruct (defined u "UART_TXCIE"), (defined u "UART_UDRIE"); cbv beta iota;
      [ | split; intros _; [split; reflexivity | reflexivity] | | ];
      destruct ((includes ;; prototypes) s1) as [e | [a s3]] eqn:E;
      split; intros H; try discriminate H; try (destruct H; discriminate);
      injection H as ->; specialize (Herr _ eq_refl); discriminate Herr.
  Qed.

Lemma header_error_iff_txcie_without_udrie_witness :
    user [("UART_TXCIE", MEmpty)] "UART_H_" = None /\
    (preprocess (user [("UART_TXCIE", MEmpty)]) =
       inl "UART_TXCIE and UART_UDRIE cannot be used together" <->
     defined (user [("UART_TXCIE", MEmpty)]) "UART_TXCIE" = true /\
     defined (user [("UART_TXCIE", MEmpty)]) "UART_UDRIE" = false).
  Proof.
    split; [reflexivity |].
    apply (header_error_iff_txcie_without_udrie (user [("UART_TXCIE", MEmpty)])).
    reflexivity.
  Defined.

  (** Include guard (lines 20-21, 307): including uart.h again after an
      inclusion that went through changes neither the macro table nor the
      declared prototypes. *)
Theorem second_include_changes_nothing u s :
    preprocess u = inr s -> uart_h s = inr (tt, s).
  Proof.
    intros Hp. unfold uart_h at 1, ifndef at 1, cond at 1.
    enough (E : defined (pp_macros s) "UART_H_" = true) by (rewrite E; reflexivity).
    destruct (u "UART_H_") eqn:Hu.
    - unfold preprocess, uart_h, ifndef, cond in Hp. cbn [pp_macros] in Hp.
      unfold defined at 1 in Hp. rewrite Hu in Hp. injection Hp as <-.
      unfold defined. cbn [pp_macros]. rewrite Hu. reflexivity.
    - destruct (preprocess_inv u s Hu Hp) as (s1 & Hc & Hm & _).
      assert (E : same_macro "UART_H_" (mk_pp (set_macro u "UART_H_" MEmpty) []) s1)
        by (refine ((_ : preserves (same_macro "UART_H_") config) _ _ _ Hc); preserve_tac).
      unfold same_macro in E. unfold defined. rewrite Hm, E. cbn [pp_macros].
      rewrite lookup_set_same. reflexivity.
  Qed.

Lemma second_include_changes_nothing_witness :
    exists s, preprocess (user [("UART_HANDSHAKE", MNum 1)]) = inr s /\
              uart_h s = inr (tt, s).
  Proof.
    destruct (preprocess (user [("UART_HANDSHAKE", MNum 1)])) as [e | s] eqn:E;
      [vm_compute in E; discriminate |].
    exists s. split; [reflexivity |].
    exact (second_include_changes_nothing _ s E).
  Defined.

  (** uart.h never defines the interrupt macros [UART_RXCIE], [UART_TXCIE]
      and [UART_UDRIE] (their defaults are commented out) nor the RTS/CTS
      pin macros of lines 136-176 (their defaults are unreachable): after
      inclusion each of them is exactly as the user left it.  The headers
      uart.h includes are not modelled and are taken not to define these
      names. *)
Theorem header_keeps_interrupt_and_pin_macros u s k :
    In k ["UART_RXCIE"; "UART_TXCIE"; "UART_UDRIE"; "UART_HANDSHAKE_DDR";
          "UART_HANDSHAKE_PIN"; "UART_HANDSHAKE_PORT"; "UART_HANDSHAKE_CTS_PIN";
          "UART_HANDSHAKE_RTS_PIN"] ->
    preprocess u = inr s -> pp_macros s k = u k.
  Proof.
    intros Hk Hp. apply (preprocess_other u s k); [| exact Hp].
    intros Hin. unfold header_macros in Hin.
    repeat (destruct Hk as [<- | Hk]; [cbn in Hin; intuition discriminate |]).
    destruct Hk.
  Qed.

Lemma header_keeps_interrupt_and_pin_macros_witness :
    In "UART_HANDSHAKE_DDR"
      ["UART_RXCIE"; "UART_TXCIE"; "UART_UDRIE"; "UART_HANDSHAKE_DDR";
       "UART_HANDSHAKE_PIN"; "UART_HANDSHAKE_PORT"; "UART_HANDSHAKE_CTS_PIN";
       "UART_HANDSHAKE_RTS_PIN"] /\
    exists s, preprocess (user [("UART_HANDSHAKE", MNum 2)]) = inr s /\
      pp_macros s "UART_HANDSHAKE_DDR" =
        user [("UART_HANDSHAKE", MNum 2)] "UART_HANDSHAKE_DDR".
  Proof.
    assert (Hk : In "UART_HANDSHAKE_DDR"
      ["UART_RXCIE"; "UART_TXCIE"; "UART_UDRIE"; "UART_HANDSHAKE_DDR";
       "UART_HANDSHAKE_PIN"; "UART_HANDSHAKE_PORT"; "UART_HANDSHAKE_CTS_PIN";
       "UART_HANDSHAKE_RTS_PIN"]) by (cbn; tauto).
    split; [exact Hk |].
    destruct (preprocess (user [("UART_HANDSHAKE", MNum 2)])) as [e | s] eqn:E;
      [vm_compute in E; discriminate |].
    exists s. split; [reflexivity |].
    exact (header_keeps_interrupt_and_pin_macros _ s _ Hk E).
  Defined.

  (** [UART_HANDSHAKE_XON] and [UART_HANDSHAKE_XOFF] keep the user's value
      when [UART_HANDSHAKE] is defined by the user; otherwise they keep the
      user's value or get 0x11 and 0x13. *)
Theorem xon_xoff_defaults_only_without_handshake u s :
    u "UART_H_" = None -> preprocess u = inr s ->
    pp_macros s "UART_HANDSHAKE_XON" =
      (if defined u "UART_HANDSHAKE" then u "UART_HANDSHAKE_XON"
       else or_default (u "UART_HANDSHAKE_XON") (MNum 17)) /\
    pp_macros s "UART_HANDSHAKE_XOFF" =
      (if defined u "UART_HANDSHAKE" then u "UART_HANDSHAKE_XOFF"
       else or_default (u "UART_HANDSHAKE_XOFF") (MNum 19)).
  Proof.
    intros Hu Hp. destruct (preprocess_inv u s Hu Hp) as (s1 & Hc & Hm & _).
    rewrite Hm, (config_xon _ _ _ Hc), (config_xoff _ _ _ Hc). cbn [pp_macros].
    rewrite !defined_set_other, !set_macro_other by discriminate.
    split; reflexivity.
  Qed.

Lemma xon_xoff_defaults_only_without_handshake_witness :
    user [("UART_HANDSHAKE", MNum 1); ("UART_HANDSHAKE_XON", MNum 17)] "UART_H_" = None /\
    exists s, preprocess (user [("UART_HANDSHAKE", MNum 1); ("UART_HANDSHAKE_XON", MNum 17)])
                = inr s /\
    pp_macros s "UART_HANDSHAKE_XON" =
      (if defined (user [("UART_HANDSHAKE", MNum 1); ("UART_HANDSHAKE_XON", MNum 17)])
            "UART_HANDSHAKE"
       then user [("UART_HANDSHAKE", MNum 1); ("UART_HANDSHAKE_XON", MNum 17)]
              "UART_HANDSHAKE_XON"
       else or_default (user [("UART_HANDSHAKE", MNum 1); ("UART_HANDSHAKE_XON", MNum 17)]
                          "UART_HANDSHAKE_XON") (MNum 17)) /\
    pp_macros s "UART_HANDSHAKE_XOFF" =
      (if defined (user [("UART_HANDSHAKE", MNum 1); ("UART_HANDSHAKE_XON", MNum 17)])
            "UART_HANDSHAKE"
       then user [("UART_HANDSHAKE", MNum 1); ("UART_HANDSHAKE_XON", MNum 17)]
              "UART_HANDSHAKE_XOFF"
       else or_default (user [("UART_HANDSHAKE", MNum 1); ("UART_HANDSHAKE_XON", MNum 17)]
                          "UART_HANDSHAKE_XOFF") (MNum 19)).
  Proof.
    split; [reflexivity |].
    destruct (preprocess (user [("UART_HANDSHAKE", MNum 1); ("UART_HANDSHAKE_XON", MNum 17)]))
      as [e | s] eqn:E; [vm_compute in E; discriminate |].
    exists s. split; [reflexivity |].
    refine (xon_xoff_defaults_only_without_handshake _ s _ E); reflexivity.
  Defined.

  (** [BAUD], which util/setbaud.h reads, is set by the header (to
      [UART_BAUDRATE]) only when the user left [UART_BAUDRATE] undefined;
      with a user baud rate it is whatever the user defined, possibly
      nothing. *)
Theorem baud_only_with_default_baudrate u s :
    u "UART_H_" = None -> preprocess u = inr s ->
    pp_macros s "BAUD" =
      if defined u "UART_BAUDRATE" then u "BAUD" else Some (MTok "UART_BAUDRATE").
  Proof.
    intros Hu Hp. destruct (preprocess_inv u s Hu Hp) as (s1 & Hc & Hm & _).
    rewrite Hm, (config_baud _ _ _ Hc). cbn [pp_macros].
    rewrite !defined_set_other, !set_macro_other by discriminate. reflexivity.
  Qed.

Lemma baud_only_with_default_baudrate_witness :
    user [("UART_BAUDRATE", MNum 115200)] "UART_H_" = None /\
    exists s, preprocess (user [("UART_BAUDRATE", MNum 115200)]) = inr s /\
      pp_macros s "BAUD" =
        if defined (user [("UART_BAUDRATE", MNum 115200)]) "UART_BAUDRATE"
        then user [("UART_BAUDRATE", MNum 115200)] "BAUD"
        else Some (MTok "UART_BAUDRATE").
  Proof.
    split; [reflexivity |].
    destruct (preprocess (user [("UART_BAUDRATE", MNum 115200)])) as [e | s] eqn:E;
      [vm_compute in E; discriminate |].
    exists s. split; [reflexivity |].
    refine (baud_only_with_default_baudrate _ s _ E); reflexivity.
  Defined.

  (** [UART_RXC_ECHO] keeps the user's definition; when the user left it
      undefined it is defined (empty) exactly when [_DOXYGEN_] is defined. *)
Theorem rxc_echo_by_user_or_doxygen u s :
    u "UART_H_" = None -> preprocess u = inr s ->
    pp_macros s "UART_RXC_ECHO" =
      match u "UART_RXC_ECHO" with
      | Some v => Some v
      | None => if defined u "_DOXYGEN_" then Some MEmpty else None
      end.
  Proof.
    intros Hu Hp. destruct (preprocess_inv u s Hu Hp) as (s1 & Hc & Hm & _).
    rewrite Hm, (config_echo _ _ _ Hc). cbn [pp_macros].
    rewrite !defined_set_other, !set_macro_other by discriminate. reflexivity.
  Qed.

Lemma rxc_echo_by_user_or_doxygen_witness :
    user [("_DOXYGEN_", MEmpty)] "UART_H_" = None /\
    exists s, preprocess (user [("_DOXYGEN_", MEmpty)]) = inr s /\
      pp_macros s "UART_RXC_ECHO" =
        match user [("_DOXYGEN_", MEmpty)] "UART_RXC_ECHO" with
        | Some v => Some v
        | None => if defined (user [("_DOXYGEN_", MEmpty)]) "_DOXYGEN_"
                  then Some MEmpty else None
        end.
  Proof.
    split; [reflexivity |].
    destruct (preprocess (user [("_DOXYGEN_", MEmpty)])) as [e | s] eqn:E;
      [vm_compute in E; discriminate |].
    exists s. split; [reflexivity |].
    refine (rxc_echo_by_user_or_doxygen _ s _ E); reflexivity.
  Defined.

  (** Every accepted first inclusion declares [uart_init] and
      [uart_disable] first (lines 279-280), and no prototype twice. *)
Theorem prototypes_start_with_init_no_duplicates u s :
    u "UART_H_" = None -> preprocess u = inr s ->
    (exists rest, pp_decls s = "uart_init" :: "uart_disable" :: rest) /\ NoDup (pp_decls s).
  Proof.
    intros Hu Hp. rewrite (preprocess_decls u s Hu Hp).
    split; [eexists; reflexivity |].
    destruct (defined u "UART_TXCIE"), (defined u "UART_UDRIE"), (defined u "UART_RXCIE"),
      (holds (or_expr (stdmode_is 1 (pp_macros s)) (stdmode_is 2 (pp_macros s)))),
      (holds (or_expr (stdmode_is 1 (pp_macros s)) (stdmode_is 3 (pp_macros s)))),
      (holds (num_pos "UART_HANDSHAKE" (pp_macros s)));
      cbn;
      repeat first [ apply NoDup_nil
                   | apply NoDup_cons; [cbn; intuition discriminate |] ].
  Qed.

Lemma prototypes_start_with_init_no_duplicates_witness :
    exists s, preprocess (user [("UART_HANDSHAKE", MNum 2)]) = inr s /\
    (exists rest, pp_decls s = "uart_init" :: "uart_disable" :: rest) /\ NoDup (pp_decls s).
  Proof.
    destruct (preprocess (user [("UART_HANDSHAKE", MNum 2)])) as [e | s] eqn:E;
      [vm_compute in E; discriminate |].
    exists s. split; [reflexivity |].
    refine (prototypes_start_with_init_no_duplicates _ s _ E); reflexivity.
  Defined.

  (** [uart_scanf] (line 296) is declared exactly when [UART_RXCIE] is not
      defined and [UART_STDMODE], as the [#if] of line 295 evaluates it,
      is 1 or 3. *)
Theorem scanf_prototype_by_config u s :
    u "UART_H_" = None -> preprocess u = inr s ->
    (In "uart_scanf" (pp_decls s) <->
       defined u "UART_RXCIE" = false /\
       (value (pp_macros s) "UART_STDMODE" = Some 1%Z \/
        value (pp_macros s) "UART_STDMODE" = Some 3%Z)).
  Proof.
    intros Hu Hp. rewrite (preprocess_decls u s Hu Hp). decls_cases u.
  Qed.

  (** [#define MODE 3] and [#define UART_STDMODE MODE]. *)
Lemma scanf_prototype_by_config_witness :
    exists s, preprocess (user [("MODE", MNum 3); ("UART_STDMODE", MTok "MODE")]) = inr s /\
    (In "uart_scanf" (pp_decls s) <->
       defined (user [("MODE", MNum 3); ("UART_STDMODE", MTok "MODE")]) "UART_RXCIE" = false /\
       (value (pp_macros s) "UART_STDMODE" = Some 1%Z \/
        value (pp_macros s) "UART_STDMODE" = Some 3%Z)).
  Proof.
    destruct (preprocess (user [("MODE", MNum 3); ("UART_STDMODE", MTok "MODE")]))
      as [e | s] eqn:E; [vm_compute in E; discriminate |].
    exists s. split; [reflexivity |].
    refine (scanf_prototype_by_config _ s _ E); reflexivity.
  Defined.

  (** [uart_handshake] (line 303) is declared exactly when none of
      [UART_TXCIE], [UART_UDRIE] and [UART_RXCIE] is defined and
      [UART_HANDSHAKE], as the [#if] of line 302 evaluates it, is above 0;
      a user who leaves [UART_HANDSHAKE] undefined gets the value 0, hence
      no [uart_handshake]. *)
Theorem handshake_prototype_by_config u s :
    u "UART_H_" = None -> preprocess u = inr s ->
    (In "uart_handshake" (pp_decls s) <->
       defined u "UART_TXCIE" = false /\ defined u "UART_UDRIE" = false /\
       defined u "UART_RXCIE" = false /\
       exists v, value (pp_macros s) "UART_HANDSHAKE" = Some v /\ (0 < v)%Z) /\
    (u "UART_HANDSHAKE" = None -> value (pp_macros s) "UART_HANDSHAKE" = Some 0%Z).
  Proof.
    intros Hu Hp.
    destruct (preprocess_macros u s Hu Hp) as (_ & _ & _ & _ & _ & Hh).
    split.
    - rewrite (preprocess_decls u s Hu Hp). decls_cases u.
    - intros H. apply value_num. rewrite Hh, H. reflexivity.
  Qed.

  (** [#define MYHS 2] and [#define UART_HANDSHAKE MYHS]. *)
Lemma handshake_prototype_by_config_witness :
    exists s, preprocess (user [("MYHS", MNum 2); ("UART_HANDSHAKE", MTok "MYHS")]) = inr s /\
    (In "uart_handshake" (pp_decls s) <->
       defined (user [("MYHS", MNum 2); ("UART_HANDSHAKE", MTok "MYHS")]) "UART_TXCIE" = false /\
       defined (user [("MYHS", MNum 2); ("UART_HANDSHAKE", MTok "MYHS")]) "UART_UDRIE" = false /\
       defined (user [("MYHS", MNum 2); ("UART_HANDSHAKE", MTok "MYHS")]) "UART_RXCIE" = false /\
       exists v, value (pp_macros s) "UART_HANDSHAKE" = Some v /\ (0 < v)%Z) /\
    (user [("MYHS", MNum 2); ("UART_HANDSHAKE", MTok "MYHS")] "UART_HANDSHAKE" = None ->
     value (pp_macros s) "UART_HANDSHAKE" = Some 0%Z).
  Proof.
    destruct (preprocess (user [("MYHS", MNum 2); ("UART_HANDSHAKE", MTok "MYHS")]))
      as [e | s] eqn:E; [vm_compute in E; discriminate |].
    exists s. split; [reflexivity |].
    refine (handshake_prototype_by_config _ s _ E); reflexivity.
  Defined.

  (** The stdio adapters and [uart_handshake] come with the polling
      functions they use: [uart_printf] only with [uart_putchar],
      [uart_scanf] only with [uart_getchar], [uart_handshake] only with both. *)
Theorem adapters_come_with_polling_functions u s :
    u "UART_H_" = None -> preprocess u = inr s ->
    (In "uart_printf" (pp_decls s) -> In "uart_putchar" (pp_decls s)) /\
    (In "uart_scanf" (pp_decls s) -> In "uart_getchar" (pp_decls s)) /\
    (In "uart_handshake" (pp_decls s) ->
       In "uart_putchar" (pp_decls s) /\ In "uart_getchar" (pp_decls s)).
  Proof.
    intros Hu Hp. rewrite (preprocess_decls u s Hu Hp).
    destruct (defined u "UART_TXCIE"), (defined u "UART_UDRIE"), (defined u "UART_RXCIE"),
      (holds (or_expr (stdmode_is 1 (pp_macros s)) (stdmode_is 2 (pp_macros s)))),
      (holds (or_expr (stdmode_is 1 (pp_macros s)) (stdmode_is 3 (pp_macros s)))),
      (holds (num_pos "UART_HANDSHAKE" (pp_macros s)));
      cbn [In app negb andb]; intuition discriminate.
  Qed.

Lemma adapters_come_with_polling_functions_witness :
    exists s, preprocess (user [("UART_HANDSHAKE", MNum 1)]) = inr s /\
    (In "uart_printf" (pp_decls s) -> In "uart_putchar" (pp_decls s)) /\
    (In "uart_scanf" (pp_decls s) -> In "uart_getchar" (pp_decls s)) /\
    (In "uart_handshake" (pp_decls s) ->
       In "uart_putchar" (pp_decls s) /\ In "uart_getchar" (pp_decls s)).
  Proof.
    destruct (preprocess (user [("UART_HANDSHAKE", MNum 1)])) as [e | s] eqn:E;
      [vm_compute in E; discriminate |].
    exists s. split; [reflexivity |].
    refine (adapters_come_with_polling_functions _ s _ E); reflexivity.
  Defined.



End HeaderExtras.
